(** * Progress reporter of lunrlust/utility: model and properties

    The repository contains two versions of its progress utility, both
    built on the [cli-progress] package:

    - the simple one (src/unnamed/part_001), whose displayed speed is the
      all-time average, and
    - the throttled one (src/src/utils/logger.js, lines 143-206), whose
      displayed speed is recomputed from the last sample at most every
      100 ms.

    Both are embedded below, next to the call sites that drive them
    (src/src/modules/devSetup.js, src/src/modules/driveSetup.js and
    src/unnamed/part_000).

    ** Numbers

    A JavaScript number is modelled by [num]: an exact rational or one of
    the IEEE special values [PInf], [NInf], [NaN].  The special values
    follow the IEEE rules the code can run into (a division by zero gives
    an infinity or NaN, NaN makes every comparison false).  Two things are
    abstracted: the rounding of binary64 arithmetic (operations are exact)
    and IEEE negative zero, which is identified with zero; in the code
    modelled here a negative zero can only come from a caller that passes
    one.  Statements about the digits or the order of computed numbers
    are therefore given with bounds on the magnitudes, inside which
    rounding, overflow and underflow leave them as stated.  [Date.now()] returns a whole number of milliseconds and is
    modelled by [Z]; each reading of the clock is an explicit argument. *)

From Stdlib Require Import ZArith QArith Qround Qabs String Ascii List Lia Bool.
From Stdlib Require Import DecimalString.
Import ListNotations.

Local Open Scope Z_scope.

(** ** JavaScript numbers *)

Module JSNumber.

Inductive num : Type :=
| Fin (q : Q)
| PInf
| NInf
| NaN.

Definition of_Z (z : Z) : num := Fin (inject_Z z).
Definition of_nat (n : nat) : num := of_Z (Z.of_nat n).
Definition of_N (n : N) : num := of_Z (Z.of_N n).
Definition zero : num := of_Z 0.

Definition Qzerob (q : Q) : bool := Qnum q =? 0.
Definition Qposb (q : Q) : bool := 0 <? Qnum q.
Definition Qnegb (q : Q) : bool := Qnum q <? 0.
Definition Qltb (x y : Q) : bool := negb (Qle_bool y x).

(** [a + b] *)
Definition add (a b : num) : num :=
  match a, b with
  | NaN, _ | _, NaN => NaN
  | Fin x, Fin y => Fin (x + y)
  | PInf, NInf | NInf, PInf => NaN
  | PInf, _ | _, PInf => PInf
  | NInf, _ | _, NInf => NInf
  end.

(** [a - b] *)
Definition sub (a b : num) : num :=
  match a, b with
  | NaN, _ | _, NaN => NaN
  | Fin x, Fin y => Fin (x - y)
  | PInf, PInf | NInf, NInf => NaN
  | PInf, _ | _, NInf => PInf
  | NInf, _ | _, PInf => NInf
  end.

(** [a / b]: a zero divisor gives an infinity with the sign of a non-zero
    dividend and NaN for a zero one. *)
Definition div (a b : num) : num :=
  match a, b with
  | NaN, _ | _, NaN => NaN
  | Fin x, Fin y =>
      if Qzerob y then
        if Qzerob x then NaN else if Qposb x then PInf else NInf
      else Fin (x / y)
  | Fin _, (PInf | NInf) => Fin 0
  | PInf, Fin y => if Qnegb y then NInf else PInf
  | NInf, Fin y => if Qnegb y then PInf else NInf
  | (PInf | NInf), (PInf | NInf) => NaN
  end.

(** [a <= b]; false as soon as one side is NaN. *)
Definition leb (a b : num) : bool :=
  match a, b with
  | NaN, _ | _, NaN => false
  | Fin x, Fin y => Qle_bool x y
  | NInf, _ | _, PInf => true
  | PInf, _ | _, NInf => false
  end.

(** [a < b] *)
Definition ltb (a b : num) : bool :=
  match a, b with
  | NaN, _ | _, NaN => false
  | Fin x, Fin y => Qltb x y
  | PInf, _ | _, NInf => false
  | NInf, _ | _, PInf => true
  end.

(** [a >= b] and [a > b] *)
Definition geb (a b : num) : bool := leb b a.
Definition gtb (a b : num) : bool := ltb b a.

(** [Math.min(a, b)] *)
Definition min (a b : num) : num :=
  match a, b with
  | NaN, _ | _, NaN => NaN
  | _, _ => if leb a b then a else b
  end.

(** *** [Number.prototype.toFixed] *)

(** Decimal digits of a natural number, ["0"] for zero. *)
Definition digits (n : Z) : string :=
  NilEmpty.string_of_uint (N.to_uint (Z.to_N n)).

(** The integer nearest to a non-negative [x], the larger one on a tie. *)
Definition roundHalfUp (x : Q) : Z := Qfloor (x + (1 # 2)).

(** The integer [n] for which [n / 10^f - x] is as close to zero as
    possible, the larger one if there are two. *)
Definition scaled (f : nat) (x : Q) : Z :=
  roundHalfUp (x * inject_Z (10 ^ Z.of_nat f)).

Fixpoint zeros (n : nat) : string :=
  match n with
  | O => EmptyString
  | S n' => String "0" (zeros n')
  end.

(** Steps 10.b-10.c of the ECMAScript algorithm: pad [m] with zeros on
    the left to [f + 1] characters and put the point before the last [f]. *)
Definition withPoint (f : nat) (m : string) : string :=
  let k := String.length m in
  let m' := if (k <=? f)%nat then (zeros (f + 1 - k) ++ m)%string else m in
  let k' := String.length m' in
  (substring 0 (k' - f) m' ++ "." ++ substring (k' - f) f m')%string.

Fixpoint stripZeros (fuel : nat) (s : Z) : Z :=
  match fuel with
  | O => s
  | S fuel' => if (s mod 10 =? 0) && negb (s =? 0) then stripZeros fuel' (s / 10) else s
  end.

(** [Number::toString] for a magnitude of at least [10^21], which prints
    in exponent notation.  The digits are those of the exact value at 17
    significant digits with the trailing zeros dropped; the search for
    the shortest digits that read back as the same binary64 is not
    modelled. *)
Definition exponentString (x : Q) : string :=
  let n := Z.of_nat (String.length (digits (Qfloor x))) in
  let s := roundHalfUp (x / inject_Z (10 ^ (n - 17))) in
  let '(s, n) := if 10 ^ 17 <=? s then (s / 10, n + 1) else (s, n) in
  let m := digits (stripZeros 17 s) in
  let e := digits (n - 1) in
  match m with
  | String d EmptyString => (String d "e+" ++ e)%string
  | String d rest => (String d "." ++ rest ++ "e+" ++ e)%string
  | EmptyString => e
  end.

(** [x.toFixed(f)] for [f] between 0 and 100. *)
Definition toFixed (f : nat) (x : num) : string :=
  match x with
  | NaN => "NaN"%string
  | PInf => "Infinity"%string
  | NInf => "-Infinity"%string
  | Fin q =>
      let s := if Qnegb q then "-"%string else EmptyString in
      let a := Qabs q in
      let m :=
        if Qle_bool (inject_Z (10 ^ 21)) a then exponentString a
        else
          let m := digits (scaled f a) in
          if (f =? 0)%nat then m else withPoint f m in
      (s ++ m)%string
  end.

End JSNumber.

Import JSNumber.
Local Open Scope string_scope.
Local Open Scope Z_scope.

(** ** The part of cli-progress the repository uses

    [cli-progress] is an external package.  Of its bar object the model
    keeps what the repository's code reads or writes: [total], [value]
    and the [payload] holding the two custom tokens [speed] and [eta] of
    the format string.  How the package draws a row from them, and its
    rendering options, are outside the repository and not modelled:
    what a tracker displays is, below, what was handed to [bar.update]. *)

Module CliProgress.

Record Payload : Type := mkPayload { speed : string; eta : string }.

Record GenericBar : Type := mkGenericBar {
  total : num;
  value : num;
  payload : Payload
}.

(** [multiBar.create(total, startValue, payload)] *)
Definition create (total startValue : num) (p : Payload) : GenericBar :=
  mkGenericBar total startValue p.

(** [bar.update(value, payload)]: stores the value and merges the keys of
    the payload, when one is given, into the bar's payload.  The callers
    below pass both keys or no payload at all. *)
Definition update (b : GenericBar) (v : num) (p : option Payload) : GenericBar :=
  mkGenericBar (total b) v
    (match p with
     | Some p' => p'
     | None => payload b
     end).

End CliProgress.

(** A call made on a tracker after its creation: [updateProgress(bar,
    value)] with the reading of the clock inside it, or
    [completeProgress(bar)]. *)
Inductive call : Type :=
| Update (value : num) (now : Z)
| Complete.

(** ** The simple version: src/unnamed/part_001 *)

Module ProgressSimple.

(** The bar object with the property the module adds to it. *)
Record Bar : Type := mkBar {
  bar : CliProgress.GenericBar;
  start : Z
}.

Definition total (b : Bar) : num := CliProgress.total (bar b).
Definition value (b : Bar) : num := CliProgress.value (bar b).
Definition speed (b : Bar) : string := CliProgress.speed (CliProgress.payload (bar b)).
Definition eta (b : Bar) : string := CliProgress.eta (CliProgress.payload (bar b)).

(** [createProgressBar(task, totalSize)]; [now] is the reading of
    [Date.now()].  The label is only printed. *)
Definition createProgressBar (task : string) (totalSize : num) (now : Z) : Bar :=
  let bar := CliProgress.create totalSize zero (CliProgress.mkPayload "N/A" "N/A") in
  mkBar bar now.

(** [updateProgress(bar, value)]; [now] is the reading of [Date.now()]. *)
Definition updateProgress (b : Bar) (value : num) (now : Z) : Bar :=
  let elapsedTime := div (sub (of_Z now) (of_Z (start b))) (of_Z 1000) in
  let speed :=
    if gtb elapsedTime zero then toFixed 2 (div value elapsedTime) ++ " MB/s" else "N/A" in
  let eta :=
    if gtb elapsedTime zero
    then toFixed 0 (div (sub (total b) value) (div value elapsedTime))
    else "N/A" in
  mkBar (CliProgress.update (bar b) value (Some (CliProgress.mkPayload speed eta)))
        (start b).

(** [completeProgress(bar)]: [bar.update(bar.total)], without a payload. *)
Definition completeProgress (b : Bar) : Bar :=
  mkBar (CliProgress.update (bar b) (total b) None) (start b).

Definition step (b : Bar) (c : call) : Bar :=
  match c with
  | Update v now => updateProgress b v now
  | Complete => completeProgress b
  end.

Definition run (b : Bar) (cs : list call) : Bar := fold_left step cs b.

End ProgressSimple.

(** ** The throttled version: src/src/utils/logger.js, lines 143-206 *)

Module ProgressThrottled.

Record Bar : Type := mkBar {
  bar : CliProgress.GenericBar;
  start : Z;
  lastUpdate : Z;
  lastValue : num
}.

Definition total (b : Bar) : num := CliProgress.total (bar b).
Definition value (b : Bar) : num := CliProgress.value (bar b).
Definition speed (b : Bar) : string := CliProgress.speed (CliProgress.payload (bar b)).
Definition eta (b : Bar) : string := CliProgress.eta (CliProgress.payload (bar b)).

(** [createProgressBar(task, totalSize)]; [now0] and [now1] are the two
    readings of [Date.now()], in the order the code takes them. *)
Definition createProgressBar (task : string) (totalSize : num) (now0 now1 : Z) : Bar :=
  let bar := CliProgress.create totalSize zero (CliProgress.mkPayload "N/A" "N/A") in
  mkBar bar now0 now1 zero.

(** [updateProgress(bar, value)]; [now] is the one reading of
    [Date.now()].  The literal [0.1] is taken as one tenth: on whole
    milliseconds the binary64 test [(now - lastUpdate) / 1000 >= 0.1]
    holds exactly from 100 ms on, as the exact one does. *)
Definition updateProgress (b : Bar) (value : num) (now : Z) : Bar :=
  let timeDiff := div (sub (of_Z now) (of_Z (lastUpdate b))) (of_Z 1000) in
  let valueDiff := sub value (lastValue b) in
  let '(speed, lastUpdate', lastValue') :=
    if geb timeDiff (Fin (1 # 10))
    then (toFixed 2 (div valueDiff timeDiff), now, value)
    else ("N/A", lastUpdate b, lastValue b) in
  let elapsedTime := div (sub (of_Z now) (of_Z (start b))) (of_Z 1000) in
  let eta :=
    if gtb elapsedTime zero
    then toFixed 0 (div (sub (total b) value) (div value elapsedTime))
    else "N/A" in
  mkBar (CliProgress.update (bar b) value (Some (CliProgress.mkPayload speed eta)))
        (start b) lastUpdate' lastValue'.

(** [completeProgress(bar)] *)
Definition completeProgress (b : Bar) : Bar :=
  mkBar (CliProgress.update (bar b) (total b) (Some (CliProgress.mkPayload "Done" "0")))
        (start b) (lastUpdate b) (lastValue b).

Definition step (b : Bar) (c : call) : Bar :=
  match c with
  | Update v now => updateProgress b v now
  | Complete => completeProgress b
  end.

Definition run (b : Bar) (cs : list call) : Bar := fold_left step cs b.

End ProgressThrottled.

(** ** The call sites of [updateProgress] *)

Module Callers.

(** The sizes, in MB, the download drivers create their bars with:
    devSetup.js ([installPython] to [installGit]) and part_000
    ([installVCRedist] to [installUbisoftConnect]). *)
Definition downloadSizes : list Q :=
  [ 272 # 10; 254 # 10; 251 # 10; 307 # 10; 956 # 10; 5902 # 10; 358 # 10;
    1685 # 10; 537 # 10;
    65 # 10; 72 # 10; 143 # 10; 251 # 10; 18 # 10; 43 # 10; 635 # 10; 28 # 10 ]%Q.

(** The body of the ['data'] handler of a download driver:
    [downloadedSize += chunk.length / (1024 * 1024)] and then
    [updateProgress(progressBar, Math.min(downloadedSize, size))].  It
    returns the new [downloadedSize] and the value argument of the call. *)
Definition onData (size downloadedSize : num) (chunkLength : N) : num * num :=
  let downloadedSize := add downloadedSize (div (of_N chunkLength) (of_Z (1024 * 1024))) in
  (downloadedSize, min downloadedSize size).

(** The calls of [updateProgress] a download makes for the chunks it
    receives; each chunk comes with the reading of the clock at its
    callback.  [downloadedSize] starts at 0. *)
Fixpoint downloadCalls (size downloadedSize : num) (chunks : list (N * Z)) : list call :=
  match chunks with
  | [] => []
  | (len, now) :: rest =>
      let '(downloadedSize, v) := onData size downloadedSize len in
      Update v now :: downloadCalls size downloadedSize rest
  end.

(** The loop of [createFolderStructure], whose bar is created with
    [folderStructure.length]:
    [for (let i = 0; i < folderStructure.length; i++) { ...
    updateProgress(progressBar, i + 1); }].  [clock i] is the reading of
    the clock in iteration [i]. *)
Definition folderCalls (length : nat) (clock : nat -> Z) : list call :=
  map (fun i => Update (add (of_nat i) (of_Z 1)) (clock i)) (seq 0 length).

(** The value arguments of a list of calls. *)
Fixpoint values (cs : list call) : list num :=
  match cs with
  | [] => []
  | Update v _ :: rest => v :: values rest
  | Complete :: rest => values rest
  end.

End Callers.

(** ** Strings and the rest of [Math]

    A string is a sequence of characters in the ASCII range; the case
    conversions below change the letters A-Z and a-z only, which is what
    [toLowerCase] and [toUpperCase] do on such strings. *)

Module JSString.

Definition isEmpty (s : string) : bool :=
  match s with
  | EmptyString => true
  | String _ _ => false
  end.

Definition lowerChar (c : ascii) : ascii :=
  let n := nat_of_ascii c in
  if ((65 <=? n) && (n <=? 90))%nat then ascii_of_nat (n + 32) else c.

Definition upperChar (c : ascii) : ascii :=
  let n := nat_of_ascii c in
  if ((97 <=? n) && (n <=? 122))%nat then ascii_of_nat (n - 32) else c.

(** [s.toLowerCase()] and [s.toUpperCase()] *)
Fixpoint toLowerCase (s : string) : string :=
  match s with
  | EmptyString => EmptyString
  | String c s' => String (lowerChar c) (toLowerCase s')
  end.

Fixpoint toUpperCase (s : string) : string :=
  match s with
  | EmptyString => EmptyString
  | String c s' => String (upperChar c) (toUpperCase s')
  end.

(** [s.charAt(i)]: the empty string when [i] is out of range. *)
Definition charAt (i : nat) (s : string) : string := substring i 1 s.

(** [s.startsWith(p)], [s.includes(sub)] and [s.endsWith(suffix)] *)
Definition startsWith (s p : string) : bool := prefix p s.

Definition includes (s sub : string) : bool :=
  match index 0 sub s with
  | Some _ => true
  | None => false
  end.

Definition endsWith (s suffix : string) : bool :=
  let ls := String.length s in
  let lx := String.length suffix in
  if (lx <=? ls)%nat then String.eqb (substring (ls - lx) lx s) suffix else false.

(** [s.split(sep)] for a separator of one character: never an empty
    array, an empty string between two separators in a row. *)
Fixpoint split (sep : ascii) (s : string) : list string :=
  match s with
  | EmptyString => [EmptyString]
  | String c s' =>
      if Ascii.eqb c sep then EmptyString :: split sep s'
      else match split sep s' with
           | part :: parts => String c part :: parts
           | [] => [String c EmptyString]
           end
  end.

(** [parts.join(sep)] *)
Fixpoint join (sep : ascii) (parts : list string) : string :=
  match parts with
  | [] => EmptyString
  | [part] => part
  | part :: rest => part ++ String sep (join sep rest)
  end.

(** [array.includes(x)] on an array of strings. *)
Definition arrayIncludes (a : list string) (x : string) : bool :=
  existsb (String.eqb x) a.

End JSString.

Module JSMath.

(** [a * b] *)
Definition mul (a b : num) : num :=
  match a, b with
  | NaN, _ | _, NaN => NaN
  | Fin x, Fin y => Fin (x * y)
  | Fin x, PInf | PInf, Fin x =>
      if Qzerob x then NaN else if Qposb x then PInf else NInf
  | Fin x, NInf | NInf, Fin x =>
      if Qzerob x then NaN else if Qposb x then NInf else PInf
  | PInf, PInf | NInf, NInf => PInf
  | PInf, NInf | NInf, PInf => NInf
  end.

(** [Math.round(x)]: the nearest integer, the larger one on a tie. *)
Definition round (x : num) : num :=
  match x with
  | Fin q => of_Z (Qfloor (q + (1 # 2)))
  | _ => x
  end.

End JSMath.

(** ** The logger: src/src/utils/logger.js, lines 1-61

    [winston] is an external package: of the logger it builds the model
    keeps the configuration [initLogger] passes.  The module variable
    [logger] is the state, [None] for [null]. *)

Module Logger.

Record Logger : Type := mkLogger {
  level : string;
  logFile : string;        (* file name of the first transport, inside logDir *)
  errorFile : string;      (* file name of the second transport, inside logDir *)
  console : option string  (* level of the console transport, when added *)
}.

(** [iso.replace(/[:.]/g, '-')] *)
Fixpoint dashed (iso : string) : string :=
  match iso with
  | EmptyString => EmptyString
  | String c rest =>
      String (if Ascii.eqb c ":" || Ascii.eqb c "." then "-"%char else c) (dashed rest)
  end.

(** The logger [initLogger] configures; [production] is
    [process.env.NODE_ENV === 'production'] and [iso] is
    [new Date().toISOString()]. *)
Definition createLogger (production : bool) (iso : string) : Logger :=
  let timestamp := dashed iso in
  mkLogger (if production then "warn" else "info")
           ("lunrlust-" ++ timestamp ++ ".log")
           ("lunrlust-error-" ++ timestamp ++ ".log")
           (if negb production then Some "warn" else None).

(** [initLogger()]: the logger returned and the new state. *)
Definition initLogger (logger : option Logger) (production : bool) (iso : string)
  : Logger * option Logger :=
  match logger with
  | Some l => (l, logger)
  | None => let l := createLogger production iso in (l, Some l)
  end.

(** [getLogger()]: [logger || initLogger()]. *)
Definition getLogger (logger : option Logger) (production : bool) (iso : string)
  : Logger * option Logger :=
  match logger with
  | Some l => (l, logger)
  | None => initLogger logger production iso
  end.

(** A call of one of the two, with the environment and the clock it
    would read. *)
Inductive request : Type :=
| Init (production : bool) (iso : string)
| Get (production : bool) (iso : string).

Definition serve (logger : option Logger) (r : request) : Logger * option Logger :=
  match r with
  | Init production iso => initLogger logger production iso
  | Get production iso => getLogger logger production iso
  end.

(** The loggers a sequence of calls returns, in order, and the final
    state. *)
Fixpoint serveAll (logger : option Logger) (rs : list request)
  : list Logger * option Logger :=
  match rs with
  | [] => ([], logger)
  | r :: rest =>
      let '(l, logger') := serve logger r in
      let '(ls, final) := serveAll logger' rest in
      (l :: ls, final)
  end.

End Logger.

(** ** Drive setup: src/src/modules/driveSetup.js *)

Module DriveSetup.

Import JSString.

(** An entry of [si.fsSize()], with the fields the code reads. *)
Record FsEntry : Type := mkFsEntry {
  mount : string;
  type : string;
  size : num;
  used : num
}.

(** The predicate of [fsSize.filter(...)] in [setupDrives]. *)
Definition eligible (disk : FsEntry) : bool :=
  if String.eqb (toLowerCase (mount disk)) "c:" then false
  else if isEmpty (mount disk) then false
  else if String.eqb (type disk) "removable" then false
  else true.

(** [disk.mount.charAt(0).toUpperCase()] *)
Definition driveLetterOf (disk : FsEntry) : string :=
  toUpperCase (charAt 0 (mount disk)).

(** What [setupDrives] does to the drives: the [format] command run for
    a drive letter, with its outcome, and the call of
    [createFolderStructure]. *)
Inductive event : Type :=
| Formatted (driveLetter : string)
| FormatFailed (driveLetter : string)
| FoldersCreated (driveLetter : string).

Definition letterOf (e : event) : string :=
  match e with
  | Formatted l | FormatFailed l | FoldersCreated l => l
  end.

(** The loop [for (const index of selectedDrives)].  [formatOk i] tells
    whether the [format] command of iteration [i] succeeds; a failure is
    caught inside the loop.  An index outside [internalDisks] makes
    [disk.mount] throw outside that inner [try], which ends the setup. *)
Fixpoint formatLoop (internalDisks : list FsEntry) (formatOk : nat -> bool)
    (i : nat) (selectedDrives : list nat) : list event :=
  match selectedDrives with
  | [] => []
  | index :: rest =>
      match nth_error internalDisks index with
      | None => []
      | Some disk =>
          let driveLetter := driveLetterOf disk in
          ((if formatOk i
            then [Formatted driveLetter; FoldersCreated driveLetter]
            else [FormatFailed driveLetter])
             ++ formatLoop internalDisks formatOk (S i) rest)%list
      end
  end.

(** [setupDrives()], given the answer of [si.fsSize()] and the answers
    to the two prompts. *)
Definition setupDrives (fsSize : list FsEntry) (selectedDrives : list nat)
    (confirmFormat : bool) (formatOk : nat -> bool) : list event :=
  let internalDisks := filter eligible fsSize in
  match internalDisks with
  | [] => []
  | _ =>
      match selectedDrives with
      | [] => []
      | _ =>
          if negb confirmFormat then []
          else formatLoop internalDisks formatOk 0 selectedDrives
      end
  end.

(** The switch of [getFolderDescription] on [cleanParts]. *)
Definition equals (part : option string) (s : string) : bool :=
  match part with
  | Some x => String.eqb x s
  | None => false
  end.

(** [part || fallback] *)
Definition orElse (part : option string) (fallback : string) : string :=
  match part with
  | Some x => if isEmpty x then fallback else x
  | None => fallback
  end.

Definition describe (cleanParts : list string) : string :=
  let part i := nth_error cleanParts i in
  if equals (part 0%nat) "Apps" then
    if equals (part 1%nat) "Games" then
      "This folder is for storing " ++ orElse (part 2%nat) "game" ++ " files and related content."
    else if equals (part 1%nat) "Packages" then
      "This folder contains " ++ orElse (part 2%nat) "software" ++ " packages and installers."
    else if equals (part 1%nat) "Drivers" then
      "This folder stores " ++ orElse (part 2%nat) "hardware" ++ " drivers and related software."
    else "This folder contains application files and related content."
  else if equals (part 0%nat) "Documents" then
    if equals (part 1%nat) "Personal" then
      "This folder contains personal documents and important files."
    else if equals (part 1%nat) "Finance" then
      "This folder stores financial documents and records."
    else if equals (part 1%nat) "Education" then
      "This folder contains educational materials, notes, and related content."
    else if equals (part 1%nat) "Writing" then
      "This folder is for writing projects, drafts, and creative content."
    else "This folder contains important documents and files."
  else if equals (part 0%nat) "Developers" then
    if equals (part 1%nat) "Networking" then
      "This folder contains networking tools, scripts, and configurations."
    else if equals (part 1%nat) "Web" then
      "This folder is for web development projects and assets."
    else if equals (part 1%nat) "GameDevelopment" then
      "This folder contains game development resources and projects."
    else if equals (part 1%nat) "AI" then
      "This folder is for AI development, models, and datasets."
    else if equals (part 1%nat) "Mobile" then
      "This folder contains mobile development projects and resources."
    else "This folder contains development resources and projects."
  else if equals (part 0%nat) "Share" then
    if equals (part 1%nat) "Media" then
      if equals (part 2%nat) "Videos" then
        "This folder contains video files and related content."
      else if equals (part 2%nat) "Audio" then
        "This folder stores audio files, music, and sound content."
      else if equals (part 2%nat) "Images" then
        "This folder contains images, photos, and visual content."
      else "This folder contains media files for sharing."
    else "This folder contains shared files and content."
  else "This folder is part of the LunrLust organized folder structure.".

(** The predicate of [parts.filter(part => part && !part.endsWith(':'))]. *)
Definition keep (part : string) : bool :=
  negb (isEmpty part) && negb (endsWith part ":").

(** [getFolderDescription(folderPath)]; [sep] is [path.sep]. *)
Definition getFolderDescription (sep : ascii) (folderPath : string) : string :=
  let parts := split sep folderPath in
  let cleanParts := filter keep parts in
  describe cleanParts.

End DriveSetup.

(** ** The system check: src/src/modules/devSetup.js, lines 584-713 *)

Module SystemCheck.

Import JSString JSMath.

(** What the [systeminformation] calls return, with the fields the
    checks read. *)
Record Cpu : Type := mkCpu { cores : num }.
Record Mem : Type := mkMem { memTotal : num }.
Record OsInfo : Type := mkOsInfo { platform : string; release : string }.
Record Controller : Type := mkController { vendor : string; model : string; vram : num }.
Record Disk : Type := mkDisk { device : string; diskSize : num; percentageFree : num }.

Record SystemInfo : Type := mkSystemInfo {
  cpu : Cpu;
  mem : Mem;
  os : OsInfo;
  controllers : list Controller;   (* graphics.controllers *)
  disks : list Disk
}.

Definition notWindows : string := "This script is designed for Windows operating systems only".
Definition oldWindows : string := "Windows 10 or 11 recommended".
Definition fewCores : string := "CPU should have at least 4 cores".
Definition littleRam : string := "System should have at least 8GB RAM".
Definition littleDisk : string := "System drive should have at least 50GB free space".
Definition integratedGpu : string := "Dedicated GPU recommended for optimal gaming performance".
Definition littleVram : string := "GPU should have at least 2GB VRAM".
Definition noGpu : string := "No GPU detected".

(** [Math.round(mem.total / 1024 / 1024 / 1024)] *)
Definition ramGB (m : Mem) : num :=
  round (div (div (div (memTotal m) (of_Z 1024)) (of_Z 1024)) (of_Z 1024)).

(** [systemDrive.size - systemDrive.size * (systemDrive.percentageFree / 100)] *)
Definition freeSpace (systemDrive : Disk) : num :=
  sub (diskSize systemDrive)
      (mul (diskSize systemDrive) (div (percentageFree systemDrive) (of_Z 100))).

Definition isIntegrated (mainGPU : Controller) : bool :=
  includes (toLowerCase (vendor mainGPU)) "intel"
  && negb (includes (toLowerCase (model mainGPU)) "arc").

(** The [issues] array at the end of the [try] block; [push] appends. *)
Definition collectIssues (si : SystemInfo) : list string :=
  let issues : list string := [] in
  let issues :=
    if negb (String.eqb (platform (os si)) "win32") then (issues ++ [notWindows])%list
    else if negb (startsWith (release (os si)) "10.")
            && negb (startsWith (release (os si)) "11.")
         then (issues ++ [oldWindows])%list
         else issues in
  let issues :=
    if ltb (cores (cpu si)) (of_Z 4) then (issues ++ [fewCores])%list else issues in
  let issues :=
    if ltb (ramGB (mem si)) (of_Z 8) then (issues ++ [littleRam])%list else issues in
  let issues :=
    match find (fun disk => includes (device disk) "C:") (disks si) with
    | Some systemDrive =>
        if ltb (freeSpace systemDrive) (of_Z (50 * 1024 * 1024 * 1024))
        then (issues ++ [littleDisk])%list else issues
    | None => issues
    end in
  match controllers si with
  | mainGPU :: _ =>
      let issues :=
        if isIntegrated mainGPU then (issues ++ [integratedGpu])%list else issues in
      if ltb (vram mainGPU) (of_Z 2048) then (issues ++ [littleVram])%list else issues
  | [] => (issues ++ [noGpu])%list
  end.

Record Result : Type := mkResult {
  success : bool;
  issues : list string;
  systemInfo : option SystemInfo
}.

(** [checkSystemRequirements(display)].  [probe] is what the five
    [systeminformation] calls give: the information, or the message of
    the error one of them throws.  [display] only prints. *)
Definition checkSystemRequirements (display : bool) (probe : SystemInfo + string) : Result :=
  match probe with
  | inl si =>
      let issues := collectIssues si in
      mkResult (Nat.eqb (List.length issues) 0) issues (Some si)
  | inr message =>
      mkResult false ["Failed to check system requirements: " ++ message] None
  end.

End SystemCheck.

(** ** Cleanup summary: src/unnamed/part_000, lines 246-266 *)

Module Optimization.

Import JSString.

Definition isWhiteSpace (c : ascii) : bool :=
  let n := nat_of_ascii c in
  ((9 <=? n) && (n <=? 13) || (n =? 32))%nat.

Definition isDigit (c : ascii) : bool :=
  let n := nat_of_ascii c in
  ((48 <=? n) && (n <=? 57))%nat.

Fixpoint trimStart (s : string) : string :=
  match s with
  | String c rest => if isWhiteSpace c then trimStart rest else s
  | EmptyString => s
  end.

(** The leading decimal digits of [s], as values, and what follows. *)
Fixpoint takeDigits (s : string) : list Z * string :=
  match s with
  | String c rest =>
      if isDigit c
      then let '(ds, after) := takeDigits rest in
           (Z.of_nat (nat_of_ascii c - 48) :: ds, after)
      else ([], s)
  | EmptyString => ([], s)
  end.

Definition decimalValue (ds : list Z) : Z :=
  fold_left (fun acc d => 10 * acc + d) ds 0.

(** An optional sign: whether it is a minus, and what follows. *)
Definition takeSign (s : string) : bool * string :=
  match s with
  | String "-" rest => (true, rest)
  | String "+" rest => (false, rest)
  | _ => (false, s)
  end.

(** [parseFloat(input)]: the value of the longest prefix of the input,
    after leading white space, that is a decimal literal (sign, digits,
    point, digits, exponent, or [Infinity]); [NaN] when there is none. *)
Definition parseFloat (input : string) : num :=
  let '(negative, s) := takeSign (trimStart input) in
  if prefix "Infinity" s then (if negative then NInf else PInf)
  else
    let '(int, s1) := takeDigits s in
    let '(frac, s2) :=
      match s1 with
      | String "." rest => takeDigits rest
      | _ => ([], s1)
      end in
    match int, frac with
    | [], [] => NaN
    | _, _ =>
        let mantissa :=
          (inject_Z (decimalValue int)
           + inject_Z (decimalValue frac) / inject_Z (10 ^ Z.of_nat (List.length frac)))%Q in
        let exponent :=
          match s2 with
          | String ("e" | "E") rest =>
              let '(minus, rest') := takeSign rest in
              match takeDigits rest' with
              | ([], _) => 0
              | (es, _) => if minus then - decimalValue es else decimalValue es
              end
          | _ => 0
          end in
        let v := (mantissa * Qpower 10 exponent)%Q in
        Fin (if negative then (- v)%Q else v)
    end.

(** The [sizes] object of [cleanTemporaryFiles]. *)
Record Sizes : Type := mkSizes {
  tempFiles : string;
  browserCache : string;
  windowsUpdate : string;
  recycleBin : string
}.

(** [calculateTotalCleaned(options, sizes)] *)
Definition calculateTotalCleaned (options : list string) (sizes : Sizes) : string :=
  let total := zero in
  let total :=
    if arrayIncludes options "temp" then add total (parseFloat (tempFiles sizes)) else total in
  let total :=
    if arrayIncludes options "browser"
    then add total (parseFloat (browserCache sizes)) else total in
  let total :=
    if arrayIncludes options "windowsUpdate"
    then add total (parseFloat (windowsUpdate sizes)) else total in
  let total :=
    if arrayIncludes options "recycleBin"
    then add total (parseFloat (recycleBin sizes)) else total in
  toFixed 1 total ++ " GB".

End Optimization.

(** ** Notions the statements use *)

(** [a === b] on numbers. *)
Definition eqb (a b : num) : bool := leb a b && leb b a.

(** Seconds between two readings of the clock:
    [(now - since) / 1000]. *)
Definition secondsBetween (since now : Z) : num :=
  div (sub (of_Z now) (of_Z since)) (of_Z 1000).

(** The all-time average rate of the specification:
    [value / elapsedTimeSinceStart]. *)
Definition averageRate (value : num) (startedAt now : Z) : num :=
  div value (secondsBetween startedAt now).

(** The estimated time remaining of the specification:
    [(total - value) / averageRate]. *)
Definition etaSeconds (total value : num) (startedAt now : Z) : num :=
  div (sub total value) (averageRate value startedAt now).

(** The rate over the last sample:
    [(value - lastSampleValue) / (now - lastSampleAt)]. *)
Definition sampleRate (value lastSampleValue : num) (lastSampleAt now : Z) : num :=
  div (sub value lastSampleValue) (secondsBetween lastSampleAt now).

(** A constant-rate input: sample [k] reports [k * increment] at
    [k * interval] milliseconds after the creation of the tracker. *)
Definition sample (increment : Q) (interval startedAt : Z) (k : nat) : call :=
  Update (Fin (inject_Z (Z.of_nat k) * increment)) (startedAt + Z.of_nat k * interval).

(** The first [n] samples, in order. *)
Definition constantRate (increment : Q) (interval startedAt : Z) (n : nat) : list call :=
  map (sample increment interval startedAt) (seq 1 n).

(** The remaining time, in seconds, at sample [k] of a constant-rate
    input: what is left of the total [t], at [increment] per [interval]. *)
Definition remaining (t increment : Q) (interval : Z) (k : nat) : Q :=
  (t - inject_Z (Z.of_nat k) * increment) * (inject_Z interval / inject_Z 1000) / increment.

(** The last sample of a throttled tracker is not older than its
    creation. *)
Definition sampleNotBeforeStart (b : ProgressThrottled.Bar) : Prop :=
  ProgressThrottled.start b <= ProgressThrottled.lastUpdate b.

(** A sequence of update calls whose values are finite and never go
    down, starting at or above [low]. *)
Fixpoint risingFrom (low : Q) (cs : list call) : Prop :=
  match cs with
  | [] => True
  | Update (Fin q) _ :: rest => (low <= q)%Q /\ risingFrom q rest
  | _ => False
  end.

(** The drive letters the [format] command was run for, in order. *)
Fixpoint attempted (trace : list DriveSetup.event) : list string :=
  match trace with
  | [] => []
  | DriveSetup.Formatted l :: rest | DriveSetup.FormatFailed l :: rest => l :: attempted rest
  | DriveSetup.FoldersCreated _ :: rest => attempted rest
  end.

(** A string without the character [c]. *)
Fixpoint without (c : ascii) (s : string) : Prop :=
  match s with
  | EmptyString => True
  | String a rest => a <> c /\ without c rest
  end.

(** A trace made of successful formats, each directly followed by the
    folder creation on the same drive, and of failed formats. *)
Fixpoint paired (trace : list DriveSetup.event) : Prop :=
  match trace with
  | [] => True
  | DriveSetup.Formatted l :: DriveSetup.FoldersCreated l' :: rest => l = l' /\ paired rest
  | DriveSetup.FormatFailed _ :: rest => paired rest
  | _ => False
  end.

(** * Properties *)

(** ** The two guards on the clock *)

Lemma secondsBetween_Fin (since now : Z) :
  secondsBetween since now = Fin ((inject_Z now - inject_Z since) / inject_Z 1000).
Proof. reflexivity. Qed.

(** [elapsedTime > 0] holds exactly when the clock has moved past the
    reference reading. *)
Lemma secondsBetween_gtb (since now : Z) :
  gtb (secondsBetween since now) zero = (since <? now).
Proof.
  unfold secondsBetween, gtb, ltb, Qltb, Qle_bool. cbn.
  destruct (since <? now) eqn:E.
  - apply Z.ltb_lt in E. apply negb_true_iff, Z.leb_gt. lia.
  - apply Z.ltb_ge in E. apply negb_false_iff, Z.leb_le. lia.
Qed.

(** [timeDiff >= 0.1] holds exactly when at least 100 ms have passed. *)
Lemma secondsBetween_geb (since now : Z) :
  geb (secondsBetween since now) (Fin (1 # 10)) = (100 <=? now - since).
Proof.
  unfold secondsBetween, geb, leb, Qle_bool. cbn.
  destruct (100 <=? now - since) eqn:E.
  - apply Z.leb_le in E. apply Z.leb_le. lia.
  - apply Z.leb_gt in E. apply Z.leb_gt. lia.
Qed.

(** ** What a single call does to each field *)

Section Fields.

Variables (bs : ProgressSimple.Bar) (bt : ProgressThrottled.Bar).
Variables (v : num) (now : Z).

Lemma simple_update_value :
  ProgressSimple.value (ProgressSimple.updateProgress bs v now) = v.
Proof. reflexivity. Qed.

Lemma simple_update_total :
  ProgressSimple.total (ProgressSimple.updateProgress bs v now) = ProgressSimple.total bs.
Proof. reflexivity. Qed.

Lemma simple_update_start :
  ProgressSimple.start (ProgressSimple.updateProgress bs v now) = ProgressSimple.start bs.
Proof. reflexivity. Qed.

Lemma simple_update_eta :
  ProgressSimple.eta (ProgressSimple.updateProgress bs v now) =
  if ProgressSimple.start bs <? now
  then toFixed 0 (etaSeconds (ProgressSimple.total bs) v (ProgressSimple.start bs) now)
  else "N/A".
Proof.
  unfold ProgressSimple.updateProgress, ProgressSimple.eta. cbn [CliProgress.update
    CliProgress.payload CliProgress.eta ProgressSimple.bar].
  fold (secondsBetween (ProgressSimple.start bs) now).
  rewrite secondsBetween_gtb. reflexivity.
Qed.

Lemma simple_update_speed :
  ProgressSimple.speed (ProgressSimple.updateProgress bs v now) =
  if ProgressSimple.start bs <? now
  then toFixed 2 (averageRate v (ProgressSimple.start bs) now) ++ " MB/s"
  else "N/A".
Proof.
  unfold ProgressSimple.updateProgress, ProgressSimple.speed. cbn [CliProgress.update
    CliProgress.payload CliProgress.speed ProgressSimple.bar].
  fold (secondsBetween (ProgressSimple.start bs) now).
  rewrite secondsBetween_gtb. reflexivity.
Qed.

Lemma throttled_update_unfold :
  ProgressThrottled.updateProgress bt v now =
  let fresh := 100 <=? now - ProgressThrottled.lastUpdate bt in
  ProgressThrottled.mkBar
    (CliProgress.update (ProgressThrottled.bar bt) v
       (Some (CliProgress.mkPayload
                (if fresh
                 then toFixed 2 (sampleRate v (ProgressThrottled.lastValue bt)
                                            (ProgressThrottled.lastUpdate bt) now)
                 else "N/A")
                (if ProgressThrottled.start bt <? now
                 then toFixed 0 (etaSeconds (ProgressThrottled.total bt) v
                                            (ProgressThrottled.start bt) now)
                 else "N/A"))))
    (ProgressThrottled.start bt)
    (if fresh then now else ProgressThrottled.lastUpdate bt)
    (if fresh then v else ProgressThrottled.lastValue bt).
Proof.
  unfold ProgressThrottled.updateProgress.
  fold (secondsBetween (ProgressThrottled.lastUpdate bt) now).
  fold (secondsBetween (ProgressThrottled.start bt) now).
  rewrite secondsBetween_geb, secondsBetween_gtb.
  destruct (100 <=? now - ProgressThrottled.lastUpdate bt); reflexivity.
Qed.

Lemma throttled_update_value :
  ProgressThrottled.value (ProgressThrottled.updateProgress bt v now) = v.
Proof. rewrite throttled_update_unfold. reflexivity. Qed.

Lemma throttled_update_total :
  ProgressThrottled.total (ProgressThrottled.updateProgress bt v now) =
  ProgressThrottled.total bt.
Proof. rewrite throttled_update_unfold. reflexivity. Qed.

Lemma throttled_update_start :
  ProgressThrottled.start (ProgressThrottled.updateProgress bt v now) =
  ProgressThrottled.start bt.
Proof. rewrite throttled_update_unfold. reflexivity. Qed.

Lemma throttled_update_eta :
  ProgressThrottled.eta (ProgressThrottled.updateProgress bt v now) =
  if ProgressThrottled.start bt <? now
  then toFixed 0 (etaSeconds (ProgressThrottled.total bt) v (ProgressThrottled.start bt) now)
  else "N/A".
Proof. rewrite throttled_update_unfold. reflexivity. Qed.

Lemma throttled_update_speed :
  ProgressThrottled.speed (ProgressThrottled.updateProgress bt v now) =
  if 100 <=? now - ProgressThrottled.lastUpdate bt
  then toFixed 2 (sampleRate v (ProgressThrottled.lastValue bt)
                             (ProgressThrottled.lastUpdate bt) now)
  else "N/A".
Proof. rewrite throttled_update_unfold. reflexivity. Qed.

End Fields.

(** ** Creation *)

(** C8.  For every total greater than zero, a freshly created tracker
    carries that total, has the reading of the clock at creation as its
    start time, a current value of 0 and the placeholder "N/A" for both
    rate and ETA; the throttled version also starts its last sample at
    the second reading of the clock with value 0. *)
Theorem createProgressBar_initial_state
    (task : string) (totalSize : num) (now0 now1 : Z)
    (Hpos : gtb totalSize zero = true) :
  let bs := ProgressSimple.createProgressBar task totalSize now0 in
  let bt := ProgressThrottled.createProgressBar task totalSize now0 now1 in
  (ProgressSimple.total bs = totalSize /\
   ProgressSimple.start bs = now0 /\
   ProgressSimple.value bs = zero /\
   ProgressSimple.speed bs = "N/A" /\
   ProgressSimple.eta bs = "N/A") /\
  (ProgressThrottled.total bt = totalSize /\
   ProgressThrottled.start bt = now0 /\
   ProgressThrottled.value bt = zero /\
   ProgressThrottled.speed bt = "N/A" /\
   ProgressThrottled.eta bt = "N/A" /\
   ProgressThrottled.lastUpdate bt = now1 /\
   ProgressThrottled.lastValue bt = zero).
Proof. cbv zeta. repeat split. Qed.

Lemma createProgressBar_initial_state_witness :
  let bs := ProgressSimple.createProgressBar "x" (of_Z 100) 5 in
  let bt := ProgressThrottled.createProgressBar "x" (of_Z 100) 5 6 in
  (ProgressSimple.total bs = of_Z 100 /\
   ProgressSimple.start bs = 5 /\
   ProgressSimple.value bs = zero /\
   ProgressSimple.speed bs = "N/A" /\
   ProgressSimple.eta bs = "N/A") /\
  (ProgressThrottled.total bt = of_Z 100 /\
   ProgressThrottled.start bt = 5 /\
   ProgressThrottled.value bt = zero /\
   ProgressThrottled.speed bt = "N/A" /\
   ProgressThrottled.eta bt = "N/A" /\
   ProgressThrottled.lastUpdate bt = 6 /\
   ProgressThrottled.lastValue bt = zero).
Proof.
  apply (createProgressBar_initial_state "x" (of_Z 100) 5 6). reflexivity.
Defined.

(** ** Clamping *)

(** A value above the total is stored as it is, in both versions, and the
    ETA is computed from it: with total 100, the value 150 reported
    after 10 s stays 150 and gives the ETA "-3", where the clamped value
    100 would give "0". *)
Lemma update_above_total_not_clamped :
  let bs := ProgressSimple.createProgressBar "x" (of_Z 100) 0 in
  let bt := ProgressThrottled.createProgressBar "x" (of_Z 100) 0 0 in
  let bs' := ProgressSimple.updateProgress bs (of_Z 150) 10000 in
  let bt' := ProgressThrottled.updateProgress bt (of_Z 150) 10000 in
  gtb (of_Z 150) (ProgressSimple.total bs) = true /\
  eqb (ProgressSimple.value bs') (ProgressSimple.total bs') = false /\
  eqb (ProgressThrottled.value bt') (ProgressThrottled.total bt') = false /\
  ProgressSimple.value bs' = of_Z 150 /\
  ProgressThrottled.value bt' = of_Z 150 /\
  ProgressSimple.eta bs' = "-3" /\
  ProgressThrottled.eta bt' = "-3" /\
  ProgressSimple.eta (ProgressSimple.updateProgress bs (of_Z 100) 10000) = "0".
Proof. vm_compute. repeat split. Qed.

(** C1, as the code has it.  [updateProgress] does not clamp: in both
    versions the value it is given becomes the current value of the bar
    unchanged, whatever the tracker, the value and the time, the total
    is left as it was, and the ETA is computed from the value as given. *)
Theorem updateProgress_stores_value_unclamped
    (bs : ProgressSimple.Bar) (bt : ProgressThrottled.Bar) (v : num) (now : Z) :
  (ProgressSimple.value (ProgressSimple.updateProgress bs v now) = v /\
   ProgressSimple.total (ProgressSimple.updateProgress bs v now) = ProgressSimple.total bs /\
   ProgressSimple.eta (ProgressSimple.updateProgress bs v now) =
     if ProgressSimple.start bs <? now
     then toFixed 0 (etaSeconds (ProgressSimple.total bs) v (ProgressSimple.start bs) now)
     else "N/A") /\
  (ProgressThrottled.value (ProgressThrottled.updateProgress bt v now) = v /\
   ProgressThrottled.total (ProgressThrottled.updateProgress bt v now) =
     ProgressThrottled.total bt /\
   ProgressThrottled.eta (ProgressThrottled.updateProgress bt v now) =
     if ProgressThrottled.start bt <? now
     then toFixed 0 (etaSeconds (ProgressThrottled.total bt) v
                                (ProgressThrottled.start bt) now)
     else "N/A").
Proof.
  split; split.
  - apply simple_update_value.
  - split; [apply simple_update_total | apply simple_update_eta].
  - apply throttled_update_value.
  - split; [apply throttled_update_total | apply throttled_update_eta].
Qed.

(** ** Total and start time never change *)

Lemma simple_step_fixed (b : ProgressSimple.Bar) (c : call) :
  ProgressSimple.total (ProgressSimple.step b c) = ProgressSimple.total b /\
  ProgressSimple.start (ProgressSimple.step b c) = ProgressSimple.start b.
Proof. destruct c; split; reflexivity. Qed.

Lemma throttled_step_fixed (b : ProgressThrottled.Bar) (c : call) :
  ProgressThrottled.total (ProgressThrottled.step b c) = ProgressThrottled.total b /\
  ProgressThrottled.start (ProgressThrottled.step b c) = ProgressThrottled.start b.
Proof.
  destruct c as [v now|]; cbn [ProgressThrottled.step].
  - split; [apply throttled_update_total | apply throttled_update_start].
  - split; reflexivity.
Qed.

Lemma simple_run_fixed (cs : list call) :
  forall b,
    ProgressSimple.total (ProgressSimple.run b cs) = ProgressSimple.total b /\
    ProgressSimple.start (ProgressSimple.run b cs) = ProgressSimple.start b.
Proof.
  induction cs as [|c cs IH]; intro b; [split; reflexivity|].
  cbn [ProgressSimple.run fold_left].
  destruct (IH (ProgressSimple.step b c)) as [Ht Hs].
  destruct (simple_step_fixed b c) as [Ht' Hs'].
  unfold ProgressSimple.run in Ht, Hs. split; congruence.
Qed.

Lemma throttled_run_fixed (cs : list call) :
  forall b,
    ProgressThrottled.total (ProgressThrottled.run b cs) = ProgressThrottled.total b /\
    ProgressThrottled.start (ProgressThrottled.run b cs) = ProgressThrottled.start b.
Proof.
  induction cs as [|c cs IH]; intro b; [split; reflexivity|].
  cbn [ProgressThrottled.run fold_left].
  destruct (IH (ProgressThrottled.step b c)) as [Ht Hs].
  destruct (throttled_step_fixed b c) as [Ht' Hs'].
  unfold ProgressThrottled.run in Ht, Hs. split; congruence.
Qed.

(** C7.  Whatever sequence of update and complete calls follows the
    creation of a tracker, its total and its creation timestamp keep the
    values set at creation, in both versions. *)
Theorem total_and_start_fixed_after_creation
    (task : string) (totalSize : num) (now0 now1 : Z) (cs : list call) :
  let bs := ProgressSimple.run (ProgressSimple.createProgressBar task totalSize now0) cs in
  let bt := ProgressThrottled.run
              (ProgressThrottled.createProgressBar task totalSize now0 now1) cs in
  (ProgressSimple.total bs = totalSize /\ ProgressSimple.start bs = now0) /\
  (ProgressThrottled.total bt = totalSize /\ ProgressThrottled.start bt = now0).
Proof.
  cbv zeta. split.
  - apply (simple_run_fixed cs (ProgressSimple.createProgressBar task totalSize now0)).
  - apply (throttled_run_fixed cs
             (ProgressThrottled.createProgressBar task totalSize now0 now1)).
Qed.

(** ** The estimated time remaining *)

(** C4.  When the value is greater than zero and time has passed since
    the creation of the tracker, the ETA handed to the bar is the text,
    with no decimals, of [(total - value)] divided by the all-time
    average rate [value / elapsedTimeSinceStart]; the last sample of the
    throttled version plays no part in it. *)
Theorem eta_uses_average_rate
    (bs : ProgressSimple.Bar) (bt : ProgressThrottled.Bar) (v : num) (now : Z)
    (Hvalue : gtb v zero = true)
    (Hs : ProgressSimple.start bs < now)
    (Ht : ProgressThrottled.start bt < now) :
  ProgressSimple.eta (ProgressSimple.updateProgress bs v now) =
    toFixed 0 (div (sub (ProgressSimple.total bs) v)
                   (averageRate v (ProgressSimple.start bs) now)) /\
  ProgressThrottled.eta (ProgressThrottled.updateProgress bt v now) =
    toFixed 0 (div (sub (ProgressThrottled.total bt) v)
                   (averageRate v (ProgressThrottled.start bt) now)).
Proof.
  rewrite simple_update_eta, throttled_update_eta.
  apply Z.ltb_lt in Hs, Ht. rewrite Hs, Ht. split; reflexivity.
Qed.

Lemma eta_uses_average_rate_witness :
  let bs := ProgressSimple.createProgressBar "x" (of_Z 100) 0 in
  let bt := ProgressThrottled.updateProgress
              (ProgressThrottled.createProgressBar "x" (of_Z 100) 0 0) (of_Z 49) 9950 in
  ProgressSimple.eta (ProgressSimple.updateProgress bs (of_Z 50) 10000) =
    toFixed 0 (div (sub (ProgressSimple.total bs) (of_Z 50))
                   (averageRate (of_Z 50) (ProgressSimple.start bs) 10000)) /\
  ProgressThrottled.eta (ProgressThrottled.updateProgress bt (of_Z 50) 10000) =
    toFixed 0 (div (sub (ProgressThrottled.total bt) (of_Z 50))
                   (averageRate (of_Z 50) (ProgressThrottled.start bt) 10000)).
Proof.
  apply (eta_uses_average_rate
           (ProgressSimple.createProgressBar "x" (of_Z 100) 0)
           (ProgressThrottled.updateProgress
              (ProgressThrottled.createProgressBar "x" (of_Z 100) 0 0) (of_Z 49) 9950)
           (of_Z 50) 10000).
  - reflexivity.
  - reflexivity.
  - reflexivity.
Defined.

(** The scenario of the specification: 50 of 100 after 10 s is 5 per
    second on average and leaves 10 s. *)
Example eta_half_way :
  let bs := ProgressSimple.updateProgress
              (ProgressSimple.createProgressBar "x" (of_Z 100) 0) (of_Z 50) 10000 in
  ProgressSimple.speed bs = "5.00 MB/s" /\ ProgressSimple.eta bs = "10".
Proof. vm_compute. split; reflexivity. Qed.

Lemma Qzerob_true_iff (x : Q) : Qzerob x = true <-> (x == 0)%Q.
Proof.
  unfold Qzerob, Qeq. cbn. rewrite Z.eqb_eq. lia.
Qed.

Lemma Qzerob_false_iff (x : Q) : Qzerob x = false <-> ~ (x == 0)%Q.
Proof.
  rewrite <- Qzerob_true_iff. destruct (Qzerob x); intuition congruence.
Qed.

Lemma Qdiv_nonzero (a b : Q) : ~ (a == 0)%Q -> ~ (b == 0)%Q -> ~ (a / b == 0)%Q.
Proof.
  intros Ha Hb H. apply Ha.
  rewrite <- (Qmult_div_r a b Hb), H. ring.
Qed.

Lemma seconds_nonzero (since now : Z) :
  since < now -> ~ ((inject_Z now - inject_Z since) / inject_Z 1000 == 0)%Q.
Proof.
  intro H. unfold Qeq. cbn. lia.
Qed.

(** For finite numbers the quotient is the rational
    [(total - value) / (value / seconds)]: no division by zero is met. *)
Lemma etaSeconds_finite (t q : Q) (startedAt now : Z) :
  (0 < q)%Q -> startedAt < now ->
  etaSeconds (Fin t) (Fin q) startedAt now =
  Fin ((t - q) / (q / ((inject_Z now - inject_Z startedAt) / inject_Z 1000))).
Proof.
  intros Hq Hnow.
  unfold etaSeconds, averageRate. rewrite secondsBetween_Fin.
  pose proof (seconds_nonzero startedAt now Hnow) as Hsec.
  assert (Hq0 : ~ (q == 0)%Q) by (intro E; rewrite E in Hq; discriminate Hq).
  pose proof (Qdiv_nonzero _ _ Hq0 Hsec) as Hrate.
  apply Qzerob_false_iff in Hsec, Hrate.
  unfold div at 2. rewrite Hsec. cbn [sub div]. rewrite Hrate. reflexivity.
Qed.

(** C9.  Given trackers with the same total and the same creation
    timestamp, the same value and the same reading of the clock, the
    simple and the throttled [updateProgress] hand the same ETA text to
    the bar, and the same value; total and creation timestamp stay
    equal.  Only the speed text is left free to differ. *)
Theorem versions_agree_except_speed
    (bs : ProgressSimple.Bar) (bt : ProgressThrottled.Bar) (v : num) (now : Z)
    (Htotal : ProgressSimple.total bs = ProgressThrottled.total bt)
    (Hstart : ProgressSimple.start bs = ProgressThrottled.start bt) :
  let rs := ProgressSimple.updateProgress bs v now in
  let rt := ProgressThrottled.updateProgress bt v now in
  ProgressSimple.eta rs = ProgressThrottled.eta rt /\
  ProgressSimple.value rs = ProgressThrottled.value rt /\
  ProgressSimple.total rs = ProgressThrottled.total rt /\
  ProgressSimple.start rs = ProgressThrottled.start rt.
Proof.
  cbv zeta.
  rewrite simple_update_eta, throttled_update_eta.
  rewrite simple_update_value, throttled_update_value.
  rewrite simple_update_total, throttled_update_total.
  rewrite simple_update_start, throttled_update_start.
  rewrite Htotal, Hstart. repeat split.
Qed.

Lemma versions_agree_except_speed_witness :
  let bs := ProgressSimple.createProgressBar "x" (of_Z 100) 0 in
  let bt := ProgressThrottled.createProgressBar "x" (of_Z 100) 0 3 in
  let rs := ProgressSimple.updateProgress bs (of_Z 50) 10000 in
  let rt := ProgressThrottled.updateProgress bt (of_Z 50) 10000 in
  ProgressSimple.eta rs = ProgressThrottled.eta rt /\
  ProgressSimple.value rs = ProgressThrottled.value rt /\
  ProgressSimple.total rs = ProgressThrottled.total rt /\
  ProgressSimple.start rs = ProgressThrottled.start rt.
Proof.
  apply (versions_agree_except_speed
           (ProgressSimple.createProgressBar "x" (of_Z 100) 0)
           (ProgressThrottled.createProgressBar "x" (of_Z 100) 0 3)
           (of_Z 50) 10000).
  - reflexivity.
  - reflexivity.
Defined.

(** The speed texts do differ: the simple version shows the average rate
    with its unit, the throttled one the rate over the last sample or
    "N/A". *)
Example versions_differ_on_speed :
  let bs := ProgressSimple.createProgressBar "x" (of_Z 100) 0 in
  let bt := ProgressThrottled.createProgressBar "x" (of_Z 100) 0 0 in
  ProgressSimple.speed (ProgressSimple.updateProgress bs (of_Z 50) 10000) = "5.00 MB/s" /\
  ProgressThrottled.speed (ProgressThrottled.updateProgress bt (of_Z 50) 10000) = "5.00" /\
  ProgressSimple.speed (ProgressSimple.updateProgress bs (of_Z 1) 50) = "20.00 MB/s" /\
  ProgressThrottled.speed (ProgressThrottled.updateProgress bt (of_Z 1) 50) = "N/A".
Proof. vm_compute. repeat split. Qed.

(** ** Completion *)

(** The throttled version forces the value to the total and shows "Done"
    and "0"; a second call changes nothing. *)
Lemma throttled_completeProgress (b : ProgressThrottled.Bar) :
  let b' := ProgressThrottled.completeProgress b in
  ProgressThrottled.value b' = ProgressThrottled.total b /\
  ProgressThrottled.total b' = ProgressThrottled.total b /\
  ProgressThrottled.speed b' = "Done" /\
  ProgressThrottled.eta b' = "0" /\
  ProgressThrottled.completeProgress b' = b'.
Proof. cbv zeta. repeat split. Qed.

(** The simple version forces the value to the total as well, and a
    second call changes nothing, but it passes no payload: the speed and
    ETA texts stay those of the last update. *)
Lemma simple_completeProgress (b : ProgressSimple.Bar) :
  let b' := ProgressSimple.completeProgress b in
  ProgressSimple.value b' = ProgressSimple.total b /\
  ProgressSimple.total b' = ProgressSimple.total b /\
  ProgressSimple.speed b' = ProgressSimple.speed b /\
  ProgressSimple.eta b' = ProgressSimple.eta b /\
  ProgressSimple.completeProgress b' = b'.
Proof. cbv zeta. repeat split. Qed.

(** C5, on the simple version.  After 50 of 100 reported at 10 s,
    [completeProgress] sets the value to 100 but leaves "5.00 MB/s" and
    "10" on display instead of a done marker and a zero ETA; the
    throttled version shows "Done" and "0" from the same calls. *)
Theorem simple_completeProgress_keeps_stale_texts :
  let bs := ProgressSimple.updateProgress
              (ProgressSimple.createProgressBar "x" (of_Z 100) 0) (of_Z 50) 10000 in
  let bt := ProgressThrottled.updateProgress
              (ProgressThrottled.createProgressBar "x" (of_Z 100) 0 0) (of_Z 50) 10000 in
  (ProgressSimple.value (ProgressSimple.completeProgress bs) = of_Z 100 /\
   ProgressSimple.speed (ProgressSimple.completeProgress bs) = "5.00 MB/s" /\
   ProgressSimple.eta (ProgressSimple.completeProgress bs) = "10") /\
  (ProgressThrottled.value (ProgressThrottled.completeProgress bt) = of_Z 100 /\
   ProgressThrottled.speed (ProgressThrottled.completeProgress bt) = "Done" /\
   ProgressThrottled.eta (ProgressThrottled.completeProgress bt) = "0").
Proof. vm_compute. repeat split. Qed.

(** ** Degenerate inputs *)

(** A zero value reported after time has passed is not met with the
    placeholder: one second after creation, with total 100, both versions
    compute the ETA [100 / (0 / 1)], a division by zero that prints as
    "Infinity", and a speed of "0.00". *)
Lemma update_zero_value_is_computed :
  let bs := ProgressSimple.createProgressBar "x" (of_Z 100) 0 in
  let bt := ProgressThrottled.createProgressBar "x" (of_Z 100) 0 0 in
  let bs' := ProgressSimple.updateProgress bs zero 1000 in
  let bt' := ProgressThrottled.updateProgress bt zero 1000 in
  eqb zero zero = true /\
  ProgressSimple.eta bs' = "Infinity" /\
  ProgressSimple.speed bs' = "0.00 MB/s" /\
  ProgressThrottled.eta bt' = "Infinity" /\
  ProgressThrottled.speed bt' = "0.00" /\
  ProgressSimple.eta bs' <> "N/A" /\
  ProgressSimple.speed bs' <> "N/A" /\
  ProgressThrottled.eta bt' <> "N/A" /\
  ProgressThrottled.speed bt' <> "N/A".
Proof. vm_compute. repeat split; discriminate. Qed.

(** Every call keeps the last sample at or after the creation. *)
Lemma sampleNotBeforeStart_step (b : ProgressThrottled.Bar) (c : call) :
  sampleNotBeforeStart b -> sampleNotBeforeStart (ProgressThrottled.step b c).
Proof.
  unfold sampleNotBeforeStart. intro H.
  destruct c as [v now|]; cbn [ProgressThrottled.step]; [|exact H].
  rewrite throttled_update_unfold. cbn.
  destruct (100 <=? now - ProgressThrottled.lastUpdate b) eqn:E; [|exact H].
  apply Z.leb_le in E. lia.
Qed.

Lemma sampleNotBeforeStart_run (cs : list call) :
  forall b, sampleNotBeforeStart b -> sampleNotBeforeStart (ProgressThrottled.run b cs).
Proof.
  induction cs as [|c cs IH]; intros b H; [exact H|].
  cbn [ProgressThrottled.run fold_left].
  apply (IH (ProgressThrottled.step b c)), sampleNotBeforeStart_step, H.
Qed.

(** C3, as the code has it.  On a tracker reached from its creation by
    any calls, an update whose reading of the clock equals the creation
    timestamp (no time elapsed) hands "N/A" to the bar for both the ETA
    and the rate, whatever the value; for the throttled version this
    takes that the clock did not go back between the two readings of
    its creation.  The guard looks at the elapsed time only. *)
Theorem placeholder_when_no_time_elapsed
    (task : string) (totalSize : num) (now0 now1 : Z) (cs : list call) (v : num)
    (Hclock : now0 <= now1) :
  let bs := ProgressSimple.run (ProgressSimple.createProgressBar task totalSize now0) cs in
  let bt := ProgressThrottled.run
              (ProgressThrottled.createProgressBar task totalSize now0 now1) cs in
  (ProgressSimple.eta (ProgressSimple.updateProgress bs v now0) = "N/A" /\
   ProgressSimple.speed (ProgressSimple.updateProgress bs v now0) = "N/A") /\
  (ProgressThrottled.eta (ProgressThrottled.updateProgress bt v now0) = "N/A" /\
   ProgressThrottled.speed (ProgressThrottled.updateProgress bt v now0) = "N/A").
Proof.
  cbv zeta.
  set (bs0 := ProgressSimple.createProgressBar task totalSize now0).
  set (bt0 := ProgressThrottled.createProgressBar task totalSize now0 now1).
  destruct (simple_run_fixed cs bs0) as [_ Hs].
  destruct (throttled_run_fixed cs bt0) as [_ Ht].
  assert (Hinv : sampleNotBeforeStart (ProgressThrottled.run bt0 cs))
    by (apply sampleNotBeforeStart_run; exact Hclock).
  unfold sampleNotBeforeStart in Hinv. rewrite Ht in Hinv.
  change (ProgressThrottled.start bt0) with now0 in Hinv.
  rewrite simple_update_eta, simple_update_speed.
  rewrite throttled_update_eta, throttled_update_speed.
  rewrite Hs, Ht. change (ProgressSimple.start bs0) with now0.
  change (ProgressThrottled.start bt0) with now0.
  rewrite Z.ltb_irrefl.
  assert (E : (100 <=? now0 - ProgressThrottled.lastUpdate (ProgressThrottled.run bt0 cs))
              = false) by (apply Z.leb_gt; lia).
  rewrite E. repeat split.
Qed.

Lemma placeholder_when_no_time_elapsed_witness :
  let cs := [Update (of_Z 10) 100; Update (of_Z 20) 250] in
  let bs := ProgressSimple.run (ProgressSimple.createProgressBar "x" (of_Z 100) 0) cs in
  let bt := ProgressThrottled.run
              (ProgressThrottled.createProgressBar "x" (of_Z 100) 0 1) cs in
  (ProgressSimple.eta (ProgressSimple.updateProgress bs (of_Z 30) 0) = "N/A" /\
   ProgressSimple.speed (ProgressSimple.updateProgress bs (of_Z 30) 0) = "N/A") /\
  (ProgressThrottled.eta (ProgressThrottled.updateProgress bt (of_Z 30) 0) = "N/A" /\
   ProgressThrottled.speed (ProgressThrottled.updateProgress bt (of_Z 30) 0) = "N/A").
Proof.
  apply (placeholder_when_no_time_elapsed "x" (of_Z 100) 0 1
           [Update (of_Z 10) 100; Update (of_Z 20) 250] (of_Z 30)).
  lia.
Defined.

(** ** Throttling of the rate *)

(** At a constant rate the rate text does not change: 10 after 100 ms
    and 20 after 200 ms are two updates 100 ms apart with different
    values, each of them overwrites the last sample, and both report
    "100.00". *)
Lemma constant_rate_keeps_rate_text :
  let b0 := ProgressThrottled.createProgressBar "x" (of_Z 100) 0 0 in
  let b1 := ProgressThrottled.updateProgress b0 (of_Z 10) 100 in
  let b2 := ProgressThrottled.updateProgress b1 (of_Z 20) 200 in
  100 <= 200 - 100 /\
  eqb (of_Z 10) (of_Z 20) = false /\
  ProgressThrottled.lastUpdate b1 = 100 /\
  ProgressThrottled.lastUpdate b2 = 200 /\
  ProgressThrottled.speed b1 = "100.00" /\
  ProgressThrottled.speed b2 = "100.00" /\
  ProgressThrottled.speed b1 = ProgressThrottled.speed b2.
Proof. vm_compute. repeat split; discriminate. Qed.

(** Between two samples the speed text handed to the bar is "N/A", not
    the rate computed at the last sample. *)
Example throttled_update_between_samples :
  let b0 := ProgressThrottled.createProgressBar "x" (of_Z 100) 0 0 in
  let b1 := ProgressThrottled.updateProgress b0 (of_Z 10) 100 in
  let b2 := ProgressThrottled.updateProgress b1 (of_Z 11) 150 in
  ProgressThrottled.speed b1 = "100.00" /\
  ProgressThrottled.speed b2 = "N/A" /\
  ProgressThrottled.lastUpdate b2 = 100 /\
  ProgressThrottled.lastValue b2 = of_Z 10.
Proof. vm_compute. repeat split. Qed.

(** C2, as the code has it.  The stored last sample (lastUpdate,
    lastValue) is overwritten, with the current reading of the clock and
    the value, exactly when at least 100 ms have passed since the last
    sample, and is left as it was otherwise.  When it is overwritten the
    rate handed to the bar is the text, with two decimals, of
    [(value - lastValue)] over the seconds since the last sample. *)
Theorem last_sample_overwritten_every_100ms
    (b : ProgressThrottled.Bar) (v : num) (now : Z) :
  let b' := ProgressThrottled.updateProgress b v now in
  (ProgressThrottled.lastUpdate b', ProgressThrottled.lastValue b') =
    (if 100 <=? now - ProgressThrottled.lastUpdate b
     then (now, v)
     else (ProgressThrottled.lastUpdate b, ProgressThrottled.lastValue b)) /\
  (100 <= now - ProgressThrottled.lastUpdate b ->
   ProgressThrottled.speed b' =
     toFixed 2 (div (sub v (ProgressThrottled.lastValue b))
                    (secondsBetween (ProgressThrottled.lastUpdate b) now))).
Proof.
  cbv zeta. rewrite throttled_update_speed, throttled_update_unfold.
  cbn [ProgressThrottled.lastUpdate ProgressThrottled.lastValue].
  split.
  - destruct (100 <=? now - ProgressThrottled.lastUpdate b); reflexivity.
  - intro H. apply Z.leb_le in H. rewrite H. reflexivity.
Qed.

Lemma last_sample_overwritten_every_100ms_witness :
  let b := ProgressThrottled.createProgressBar "x" (of_Z 100) 0 0 in
  ProgressThrottled.speed (ProgressThrottled.updateProgress b (of_Z 10) 100) =
    toFixed 2 (div (sub (of_Z 10) (ProgressThrottled.lastValue b))
                   (secondsBetween (ProgressThrottled.lastUpdate b) 100)).
Proof.
  apply (proj2 (last_sample_overwritten_every_100ms
                  (ProgressThrottled.createProgressBar "x" (of_Z 100) 0 0) (of_Z 10) 100)).
  cbn. lia.
Defined.

(** ** Constant-rate input *)

Lemma roundHalfUp_monotone (x y : Q) : (x <= y)%Q -> roundHalfUp x <= roundHalfUp y.
Proof.
  intro H. unfold roundHalfUp. apply Qfloor_resp_le.
  apply Qplus_le_compat; [exact H | apply Qle_refl].
Qed.

(** ** Texts of numbers that are not negative *)

Lemma Qabs_nonneg_eq (x : Q) : (0 <= x)%Q -> Qabs x = x.
Proof.
  destruct x as [n d]. unfold Qle. cbn. intro H.
  rewrite Z.abs_eq by lia. reflexivity.
Qed.

Lemma Qnegb_nonneg (x : Q) : (0 <= x)%Q -> Qnegb x = false.
Proof.
  destruct x as [n d]. unfold Qle, Qnegb. cbn. intro H. apply Z.ltb_ge. lia.
Qed.

Lemma below_exponent_notation (x : Q) :
  (x < inject_Z (10 ^ 21))%Q -> Qle_bool (inject_Z (10 ^ 21)) x = false.
Proof.
  intro H. destruct (Qle_bool (inject_Z (10 ^ 21)) x) eqn:E; [|reflexivity].
  apply Qle_bool_iff in E. exfalso. exact (Qlt_not_le _ _ H E).
Qed.

Lemma roundHalfUp_nonneg (x : Q) : (0 <= x)%Q -> 0 <= roundHalfUp x.
Proof.
  intro H. change 0 with (roundHalfUp 0). apply roundHalfUp_monotone, H.
Qed.

(** [x.toFixed(0)] of a finite [x] from 0 up to, not including, [10^21]
    is the decimal numeral of the nearest integer. *)
Lemma toFixed0_natural (x : Q) :
  (0 <= x)%Q -> (x < inject_Z (10 ^ 21))%Q ->
  toFixed 0 (Fin x) = digits (roundHalfUp x).
Proof.
  intros H0 H21. unfold toFixed.
  rewrite (Qnegb_nonneg x H0), (Qabs_nonneg_eq x H0), (below_exponent_notation x H21).
  cbn [Nat.eqb append]. unfold scaled, roundHalfUp. f_equal.
  apply Qfloor_comp. change (inject_Z (10 ^ Z.of_nat 0)) with 1%Q. ring.
Qed.

(** [x.toFixed(2)] on the same range is the numeral of the nearest
    number of hundredths, with the point before its last two digits. *)
Lemma toFixed2_natural (x : Q) :
  (0 <= x)%Q -> (x < inject_Z (10 ^ 21))%Q ->
  toFixed 2 (Fin x) = withPoint 2 (digits (scaled 2 x)) /\ 0 <= scaled 2 x.
Proof.
  intros H0 H21. unfold toFixed.
  rewrite (Qnegb_nonneg x H0), (Qabs_nonneg_eq x H0), (below_exponent_notation x H21).
  cbn [Nat.eqb append]. split; [reflexivity|].
  unfold scaled. apply roundHalfUp_nonneg.
  apply Qmult_le_0_compat; [exact H0 | discriminate].
Qed.

Lemma run_snoc_simple (b : ProgressSimple.Bar) (cs : list call) (c : call) :
  ProgressSimple.run b (cs ++ [c]) = ProgressSimple.step (ProgressSimple.run b cs) c.
Proof. unfold ProgressSimple.run. rewrite fold_left_app. reflexivity. Qed.

Lemma run_snoc_throttled (b : ProgressThrottled.Bar) (cs : list call) (c : call) :
  ProgressThrottled.run b (cs ++ [c]) =
  ProgressThrottled.step (ProgressThrottled.run b cs) c.
Proof. unfold ProgressThrottled.run. rewrite fold_left_app. reflexivity. Qed.

Lemma constantRate_S (increment : Q) (interval startedAt : Z) (n : nat) :
  constantRate increment interval startedAt (S n) =
  (constantRate increment interval startedAt n
     ++ [sample increment interval startedAt (S n)])%list.
Proof.
  unfold constantRate. rewrite seq_S, map_app. reflexivity.
Qed.

Section ConstantRate.

Variables (t increment : Q) (interval startedAt : Z).
Hypothesis Hincrement : (0 < increment)%Q.
Hypothesis Hinterval : 0 < interval.

Lemma remaining_decreases (k : nat) : (remaining t increment interval (S k) <= remaining t increment interval k)%Q.
Proof.
  unfold remaining, Qdiv.
  apply Qmult_le_compat_r; [|apply Qlt_le_weak, Qinv_lt_0_compat, Hincrement].
  apply Qmult_le_compat_r.
  - rewrite Nat2Z.inj_succ. unfold Z.succ. rewrite inject_Z_plus.
    setoid_replace (t - (inject_Z (Z.of_nat k) + inject_Z 1) * increment)%Q
      with ((t - inject_Z (Z.of_nat k) * increment) - increment)%Q by ring.
    rewrite <- (Qplus_0_r (t - inject_Z (Z.of_nat k) * increment)) at 2.
    apply Qplus_le_compat; [apply Qle_refl|].
    apply Qlt_le_weak. rewrite <- (Qopp_opp 0). apply Qopp_lt_compat. exact Hincrement.
  - unfold Qle, Qmult, Qinv, inject_Z. cbn. lia.
Qed.

Lemma remaining_nonneg (k : nat) :
  (inject_Z (Z.of_nat k) * increment <= t)%Q -> (0 <= remaining t increment interval k)%Q.
Proof.
  intro H. unfold remaining, Qdiv.
  apply Qmult_le_0_compat; [|apply Qlt_le_weak, Qinv_lt_0_compat, Hincrement].
  apply Qmult_le_0_compat.
  - unfold Qminus. rewrite <- Qle_minus_iff. exact H.
  - unfold Qle, Qmult, Qinv, inject_Z. cbn. lia.
Qed.

(** The ETA of sample [k >= 1], as a number. *)
Lemma etaSeconds_sample (k : nat) :
  (1 <= k)%nat ->
  exists x : Q,
    etaSeconds (Fin t) (Fin (inject_Z (Z.of_nat k) * increment)) startedAt
               (startedAt + Z.of_nat k * interval) = Fin x /\
    (x == remaining t increment interval k)%Q.
Proof.
  intro Hk.
  assert (HK : (0 < inject_Z (Z.of_nat k))%Q).
  { unfold Qlt, inject_Z. cbn. lia. }
  eexists. split.
  - apply etaSeconds_finite.
    + apply Qmult_lt_0_compat; assumption.
    + nia.
  - unfold remaining. rewrite inject_Z_plus, inject_Z_mult.
    assert (Hi : ~ (inject_Z interval == 0)%Q) by (unfold Qeq, inject_Z; cbn; lia).
    assert (Hk0 : ~ (inject_Z (Z.of_nat k) == 0)%Q)
      by (apply Qnot_eq_sym, Qlt_not_eq, HK).
    assert (Hinc0 : ~ (increment == 0)%Q)
      by (apply Qnot_eq_sym, Qlt_not_eq, Hincrement).
    field. repeat split; try assumption.
    intro E.
    assert (P : (inject_Z (Z.of_nat k) * inject_Z interval == 0)%Q)
      by (rewrite <- E; ring).
    destruct (Qmult_integral _ _ P); contradiction.
Qed.

End ConstantRate.

(** The ETA text after [S j] samples of a constant-rate input is the one
    computed at the last sample, from the total and creation timestamp
    set at creation. *)
Lemma simple_eta_after_samples
    (task : string) (t increment : Q) (interval now0 : Z) (j : nat) :
  0 < interval ->
  ProgressSimple.eta
    (ProgressSimple.run (ProgressSimple.createProgressBar task (Fin t) now0)
                        (constantRate increment interval now0 (S j))) =
  toFixed 0 (etaSeconds (Fin t) (Fin (inject_Z (Z.of_nat (S j)) * increment)) now0
                        (now0 + Z.of_nat (S j) * interval)).
Proof.
  intro Hint. rewrite constantRate_S, run_snoc_simple.
  unfold sample. cbn [ProgressSimple.step]. rewrite simple_update_eta.
  destruct (simple_run_fixed (constantRate increment interval now0 j)
              (ProgressSimple.createProgressBar task (Fin t) now0)) as [Ht Hs].
  rewrite Ht, Hs. cbn [ProgressSimple.createProgressBar ProgressSimple.start
    ProgressSimple.total ProgressSimple.bar CliProgress.create CliProgress.total].
  assert (E : (now0 <? now0 + Z.of_nat (S j) * interval) = true) by (apply Z.ltb_lt; nia).
  rewrite E. reflexivity.
Qed.

Lemma throttled_eta_after_samples
    (task : string) (t increment : Q) (interval now0 now1 : Z) (j : nat) :
  0 < interval ->
  ProgressThrottled.eta
    (ProgressThrottled.run (ProgressThrottled.createProgressBar task (Fin t) now0 now1)
                           (constantRate increment interval now0 (S j))) =
  toFixed 0 (etaSeconds (Fin t) (Fin (inject_Z (Z.of_nat (S j)) * increment)) now0
                        (now0 + Z.of_nat (S j) * interval)).
Proof.
  intro Hint. rewrite constantRate_S, run_snoc_throttled.
  unfold sample. cbn [ProgressThrottled.step]. rewrite throttled_update_eta.
  destruct (throttled_run_fixed (constantRate increment interval now0 j)
              (ProgressThrottled.createProgressBar task (Fin t) now0 now1)) as [Ht Hs].
  rewrite Ht, Hs. cbn [ProgressThrottled.createProgressBar ProgressThrottled.start
    ProgressThrottled.total ProgressThrottled.bar CliProgress.create CliProgress.total].
  assert (E : (now0 <? now0 + Z.of_nat (S j) * interval) = true) by (apply Z.ltb_lt; nia).
  rewrite E. reflexivity.
Qed.

(** A fixed increment at fixed time steps is not enough: 10 more every
    100 ms, first reported 1 ms after the creation of the tracker, against
    a total of 1000.  The ETA comes from the average rate since creation,
    which the early first sample sets too high, so the texts grow: "0",
    "5", "6", "7". *)
Lemma eta_grows_off_the_creation_line :
  let cs n := firstn n [Update (of_Z 10) 1; Update (of_Z 20) 101;
                        Update (of_Z 30) 201; Update (of_Z 40) 301] in
  let bs n := ProgressSimple.run (ProgressSimple.createProgressBar "x" (of_Z 1000) 0) (cs n) in
  let bt n := ProgressThrottled.run
                (ProgressThrottled.createProgressBar "x" (of_Z 1000) 0 0) (cs n) in
  map (fun n => ProgressSimple.eta (bs n)) [1; 2; 3; 4]%nat = ["0"; "5"; "6"; "7"] /\
  map (fun n => ProgressThrottled.eta (bt n)) [1; 2; 3; 4]%nat = ["0"; "5"; "6"; "7"].
Proof. vm_compute. split; reflexivity. Qed.

Lemma remaining_below_exponent_notation (total increment interval : Z) (k : nat) :
  0 < increment -> 0 < interval -> (1 <= k)%nat ->
  Z.of_nat k * increment <= total -> total <= 10 ^ 12 ->
  Z.of_nat k * interval <= 10 ^ 11 ->
  (remaining (inject_Z total) (inject_Z increment) interval k < inject_Z (10 ^ 21))%Q.
Proof.
  intros Hinc Hint Hk Htotal Hsize Htime.
  destruct increment as [|p|p]; try lia.
  unfold remaining, Qlt, Qdiv, Qmult, Qinv, Qminus, Qplus, Qopp, inject_Z.
  cbn -[Z.mul Z.pow Z.of_nat].
  assert (Hstep : interval <= 10 ^ 11) by nia.
  assert (Hleft : 0 <= total - Z.of_nat k * Z.pos p <= 10 ^ 12) by lia.
  assert (Hprod : (total - Z.of_nat k * Z.pos p) * interval <= 10 ^ 12 * 10 ^ 11)
    by (apply Z.mul_le_mono_nonneg; lia).
  change (10 ^ 12 * 10 ^ 11) with (10 ^ 23) in Hprod.
  change (10 ^ 21) with 1000000000000000000000.
  change (10 ^ 23) with 100000000000000000000000 in Hprod.
  nia.
Qed.

(** C6, as the code has it.  On a tracker fed at a constant rate from
    its creation on, sample [k] reporting the whole number
    [k * increment] at [k * interval] ms after creation, with values up
    to a total of at most [10^12] and within [10^11] ms of creation, the
    ETA texts of both versions are numerals of whole numbers, and the one
    at sample [k + 1] is not greater than the one at sample [k], for
    every [k >= 1]. *)
Theorem eta_texts_never_increase_from_creation
    (task : string) (total increment interval now0 now1 : Z) (k : nat)
    (Hincrement : 0 < increment)
    (Hinterval : 0 < interval)
    (Hk : (1 <= k)%nat)
    (Htotal : Z.of_nat (S k) * increment <= total)
    (Hsize : total <= 10 ^ 12)
    (Hclock : 0 <= now0 <= 8640000000000000)
    (Htime : Z.of_nat (S k) * interval <= 10 ^ 11) :
  let bs n := ProgressSimple.run (ProgressSimple.createProgressBar task (of_Z total) now0)
                                 (constantRate (inject_Z increment) interval now0 n) in
  let bt n := ProgressThrottled.run
                (ProgressThrottled.createProgressBar task (of_Z total) now0 now1)
                (constantRate (inject_Z increment) interval now0 n) in
  exists n n' : Z,
    (ProgressSimple.eta (bs k) = digits n /\
     ProgressSimple.eta (bs (S k)) = digits n') /\
    (ProgressThrottled.eta (bt k) = digits n /\
     ProgressThrottled.eta (bt (S k)) = digits n') /\
    0 <= n' <= n.
Proof.
  cbv zeta. unfold of_Z.
  assert (Hq : (0 < inject_Z increment)%Q) by (unfold Qlt, inject_Z; cbn; lia).
  destruct k as [|j]; [lia|].
  destruct (etaSeconds_sample (inject_Z total) (inject_Z increment) interval now0
              Hq Hinterval (S j)) as (x & Ex & Hx); [lia|].
  destruct (etaSeconds_sample (inject_Z total) (inject_Z increment) interval now0
              Hq Hinterval (S (S j))) as (x' & Ex' & Hx'); [lia|].
  rewrite !simple_eta_after_samples, !throttled_eta_after_samples by exact Hinterval.
  rewrite Ex, Ex'.
  assert (Hle : (x' <= x)%Q).
  { rewrite Hx, Hx'. apply remaining_decreases; assumption. }
  assert (H0' : (0 <= x')%Q).
  { rewrite Hx'. apply (remaining_nonneg _ _ _ Hq Hinterval).
    rewrite <- inject_Z_mult, <- Zle_Qle. exact Htotal. }
  assert (H0 : (0 <= x)%Q) by (apply (Qle_trans _ x'); assumption).
  assert (H21 : (x < inject_Z (10 ^ 21))%Q).
  { rewrite Hx. apply remaining_below_exponent_notation; try assumption; lia. }
  assert (H21' : (x' < inject_Z (10 ^ 21))%Q) by (apply (Qle_lt_trans _ x); assumption).
  rewrite (toFixed0_natural x H0 H21), (toFixed0_natural x' H0' H21').
  exists (roundHalfUp x), (roundHalfUp x').
  repeat split; try reflexivity.
  - apply roundHalfUp_nonneg, H0'.
  - apply roundHalfUp_monotone, Hle.
Qed.

Lemma eta_texts_never_increase_from_creation_witness :
  let bs n := ProgressSimple.run (ProgressSimple.createProgressBar "x" (of_Z 100) 5)
                                 (constantRate (inject_Z 10) 100 5 n) in
  let bt n := ProgressThrottled.run
                (ProgressThrottled.createProgressBar "x" (of_Z 100) 5 6)
                (constantRate (inject_Z 10) 100 5 n) in
  exists n n' : Z,
    (ProgressSimple.eta (bs 5%nat) = digits n /\
     ProgressSimple.eta (bs 6%nat) = digits n') /\
    (ProgressThrottled.eta (bt 5%nat) = digits n /\
     ProgressThrottled.eta (bt 6%nat) = digits n') /\
    0 <= n' <= n.
Proof.
  apply (eta_texts_never_increase_from_creation "x" 100 10 100 5 6 5).
  - lia.
  - lia.
  - lia.
  - lia.
  - lia.
  - lia.
  - lia.
Defined.

(** The example of the specification, 10 more every 100 ms against a
    total of 100: the ETA texts of the ten samples. *)
Example eta_texts_at_constant_rate :
  map (fun n => ProgressThrottled.eta
                  (ProgressThrottled.run
                     (ProgressThrottled.createProgressBar "x" (Fin 100) 0 0)
                     (constantRate 10 100 0 n)))
      (seq 1 10) =
  ["1"; "1"; "1"; "1"; "1"; "0"; "0"; "0"; "0"; "0"].
Proof. vm_compute. reflexivity. Qed.

(** The rate has to be constant from the creation on: after a burst of
    50 in the first millisecond, 1 more every 100 ms makes the average
    rate fall and the ETA text grow from "0" to "1". *)
Example eta_grows_after_a_burst :
  let b0 := ProgressSimple.createProgressBar "x" (Fin 100) 0 in
  let b1 := ProgressSimple.updateProgress b0 (of_Z 50) 1 in
  let b2 := ProgressSimple.updateProgress b1 (of_Z 60) 1001 in
  ProgressSimple.eta b1 = "0" /\ ProgressSimple.eta b2 = "1".
Proof. vm_compute. split; reflexivity. Qed.

(** ** The call sites *)

Lemma leb_gtb (a b : num) : leb a b = true -> gtb a b = false.
Proof.
  destruct a as [x| | |], b as [y| | |]; cbn; try congruence.
  unfold Qltb. intros ->. reflexivity.
Qed.

Lemma min_at_most_size (d size : Q) : leb (min (Fin d) (Fin size)) (Fin size) = true.
Proof.
  unfold min. cbn [leb].
  destruct (Qle_bool d size) eqn:E; cbn [leb]; [exact E|].
  apply Qle_bool_iff, Qle_refl.
Qed.

(** [downloadedSize] stays a finite number. *)
Lemma onData_finite (size d : Q) (len : N) :
  exists d' : Q, Callers.onData (Fin size) (Fin d) len = (Fin d', min (Fin d') (Fin size)).
Proof.
  unfold Callers.onData.
  eexists. unfold of_N, of_Z. cbn [div add]. reflexivity.
Qed.

Lemma download_values_at_most_size (size : Q) (chunks : list (N * Z)) :
  forall d : Q,
    Forall (fun v => leb v (Fin size) = true)
           (Callers.values (Callers.downloadCalls (Fin size) (Fin d) chunks)).
Proof.
  induction chunks as [|[len now] rest IH]; intro d; [constructor|].
  cbn [Callers.downloadCalls].
  destruct (onData_finite size d len) as [d' ->].
  cbn [Callers.values]. constructor; [apply min_at_most_size | apply IH].
Qed.

Lemma folder_values_at_most_length (length : nat) (clock : nat -> Z) :
  Forall (fun v => leb v (of_nat length) = true)
         (Callers.values (Callers.folderCalls length clock)).
Proof.
  unfold Callers.folderCalls.
  assert (H : forall l : list nat,
             Forall (fun i => (i < length)%nat) l ->
             Forall (fun v => leb v (of_nat length) = true)
                    (Callers.values
                       (map (fun i => Update (add (of_nat i) (of_Z 1)) (clock i)) l))).
  { induction l as [|i l IH]; intro Hl; [constructor|].
    inversion Hl as [|? ? Hi Hrest]; subst.
    cbn [map Callers.values]. constructor; [|apply IH, Hrest].
    unfold of_nat, of_Z. cbn [add leb].
    apply Qle_bool_iff. unfold Qle, Qplus, inject_Z. cbn. lia. }
  apply H, Forall_forall. intros i Hi. apply in_seq in Hi. lia.
Qed.

(** C10.  Every call site of [updateProgress] passes a value that is at
    most the total its bar was created with.  A download driver, whose
    bar is created with [size], passes [Math.min(downloadedSize, size)]
    for every chunk it receives; the folder loop, whose bar is created
    with [folderStructure.length], passes [i + 1] for [i] below that
    length.  So no call is made with a value greater than the total, for
    either version of the progress utility. *)
Theorem callers_pass_at_most_total :
  (forall (task : string) (size : Q) (chunks : list (N * Z)) (now0 now1 : Z),
     let bs := ProgressSimple.createProgressBar task (Fin size) now0 in
     let bt := ProgressThrottled.createProgressBar task (Fin size) now0 now1 in
     Forall (fun v => (leb v (ProgressSimple.total bs) = true /\
                       gtb v (ProgressSimple.total bs) = false) /\
                      (leb v (ProgressThrottled.total bt) = true /\
                       gtb v (ProgressThrottled.total bt) = false))
            (Callers.values (Callers.downloadCalls (Fin size) zero chunks))) /\
  (forall (task : string) (length : nat) (clock : nat -> Z) (now0 now1 : Z),
     let bs := ProgressSimple.createProgressBar task (of_nat length) now0 in
     let bt := ProgressThrottled.createProgressBar task (of_nat length) now0 now1 in
     Forall (fun v => (leb v (ProgressSimple.total bs) = true /\
                       gtb v (ProgressSimple.total bs) = false) /\
                      (leb v (ProgressThrottled.total bt) = true /\
                       gtb v (ProgressThrottled.total bt) = false))
            (Callers.values (Callers.folderCalls length clock))).
Proof.
  split; intros; cbv zeta;
    change (ProgressSimple.total (ProgressSimple.createProgressBar ?t ?s ?n)) with s;
    change (ProgressThrottled.total (ProgressThrottled.createProgressBar ?t ?s ?n ?m)) with s.
  - eapply Forall_impl; [|apply (download_values_at_most_size size chunks 0)].
    intros v Hv. cbv beta. auto using leb_gtb.
  - eapply Forall_impl; [|apply (folder_values_at_most_length length clock)].
    intros v Hv. cbv beta. auto using leb_gtb.
Qed.

(** The sizes the download drivers use, checked one by one on a download
    that overshoots: three chunks of 400 MiB. *)
Example download_sites_stay_within_size :
  forallb (fun size =>
             forallb (fun v => leb v (Fin size))
                     (Callers.values
                        (Callers.downloadCalls (Fin size) zero
                           [(419430400%N, 100); (419430400%N, 200); (419430400%N, 300)])))
          Callers.downloadSizes = true.
Proof. vm_compute. reflexivity. Qed.

(** * Further properties of the progress utility and its callers *)

(** ** Samples of the throttled version *)

Lemma throttled_step_lastUpdate (b : ProgressThrottled.Bar) (c : call) :
  ProgressThrottled.lastUpdate (ProgressThrottled.step b c) = ProgressThrottled.lastUpdate b \/
  ProgressThrottled.lastUpdate b + 100 <=
    ProgressThrottled.lastUpdate (ProgressThrottled.step b c).
Proof.
  destruct c as [v now|]; cbn [ProgressThrottled.step]; [|left; reflexivity].
  rewrite throttled_update_unfold. cbn [ProgressThrottled.lastUpdate].
  destruct (100 <=? now - ProgressThrottled.lastUpdate b) eqn:E; [right|left; reflexivity].
  apply Z.leb_le in E. lia.
Qed.

(** X1.  Whatever calls are made and whatever the clock does, the time
    of the last sample of a throttled tracker never goes back: after any
    sequence of calls it is the one before them or at least 100 ms
    later. *)
Theorem throttled_samples_100ms_apart (b : ProgressThrottled.Bar) (cs : list call) :
  ProgressThrottled.lastUpdate (ProgressThrottled.run b cs) = ProgressThrottled.lastUpdate b \/
  ProgressThrottled.lastUpdate b + 100 <=
    ProgressThrottled.lastUpdate (ProgressThrottled.run b cs).
Proof.
  revert b. induction cs as [|c cs IH]; intro b; [left; reflexivity|].
  cbn [ProgressThrottled.run fold_left].
  specialize (IH (ProgressThrottled.step b c)). unfold ProgressThrottled.run in IH.
  destruct (throttled_step_lastUpdate b c) as [E|E], IH as [E'|E']; [left|right..]; lia.
Qed.

(** ** Values passed by the callers *)

Lemma onData_sum (size d : Q) (len : N) :
  Callers.onData (Fin size) (Fin d) len =
  (Fin (d + inject_Z (Z.of_N len) / inject_Z (1024 * 1024)),
   min (Fin (d + inject_Z (Z.of_N len) / inject_Z (1024 * 1024))) (Fin size)).
Proof. reflexivity. Qed.

Lemma chunk_nonneg (len : N) : (0 <= inject_Z (Z.of_N len) / inject_Z (1024 * 1024))%Q.
Proof.
  unfold Qle, Qdiv, Qmult, Qinv, inject_Z. cbn. lia.
Qed.

Lemma min_Fin (d size : Q) :
  min (Fin d) (Fin size) = Fin (if Qle_bool d size then d else size).
Proof. unfold min. cbn [leb]. destruct (Qle_bool d size); reflexivity. Qed.

Lemma download_rising (size : Q) (chunks : list (N * Z)) :
  forall d low : Q,
    (low <= d)%Q -> (low <= size)%Q ->
    risingFrom low (Callers.downloadCalls (Fin size) (Fin d) chunks).
Proof.
  induction chunks as [|[len now] rest IH]; intros d low Hd Hsize; [exact I|].
  cbn [Callers.downloadCalls]. rewrite onData_sum, min_Fin. cbn [risingFrom].
  pose proof (chunk_nonneg len) as Hlen.
  set (d' := (d + inject_Z (Z.of_N len) / inject_Z (1024 * 1024))%Q) in *.
  assert (Hd' : (d <= d')%Q).
  { unfold d'. rewrite <- (Qplus_0_r d) at 1. apply Qplus_le_compat; [apply Qle_refl|exact Hlen]. }
  destruct (Qle_bool d' size) eqn:E.
  - apply Qle_bool_iff in E. split.
    + apply (Qle_trans _ d); assumption.
    + apply IH; [apply Qle_refl | exact E].
  - split; [exact Hsize|].
    apply IH; [|apply Qle_refl].
    apply Qnot_lt_le. intro H. apply Qlt_le_weak, Qle_bool_iff in H. congruence.
Qed.

(** X2.  The values a download driver passes to [updateProgress] are
    finite, start at zero or above and never go down from one chunk to
    the next, for every non-negative size and every sequence of chunks. *)
Theorem download_values_never_go_down
    (size : Q) (chunks : list (N * Z)) (Hsize : (0 <= size)%Q) :
  risingFrom 0 (Callers.downloadCalls (Fin size) zero chunks).
Proof.
  apply (download_rising size chunks 0 0); [apply Qle_refl | exact Hsize].
Qed.

Lemma download_values_never_go_down_witness :
  risingFrom 0 (Callers.downloadCalls (Fin (254 # 10)) zero
                  [(16384%N, 10); (0%N, 20); (65536%N, 30)]).
Proof.
  apply (download_values_never_go_down (254 # 10) [(16384%N, 10); (0%N, 20); (65536%N, 30)]).
  unfold Qle. cbn. lia.
Defined.

(** X3.  Once the megabytes received have reached the size, every later
    call of a download driver passes a value equal to the size. *)
Theorem download_saturates_at_size (size : Q) (chunks : list (N * Z)) :
  forall d : Q,
    (size <= d)%Q ->
    Forall (fun v => eqb v (Fin size) = true)
           (Callers.values (Callers.downloadCalls (Fin size) (Fin d) chunks)).
Proof.
  induction chunks as [|[len now] rest IH]; intros d Hd; [constructor|].
  cbn [Callers.downloadCalls]. rewrite onData_sum, min_Fin. cbn [Callers.values].
  pose proof (chunk_nonneg len) as Hlen.
  set (d' := (d + inject_Z (Z.of_N len) / inject_Z (1024 * 1024))%Q) in *.
  assert (Hd' : (size <= d')%Q).
  { unfold d'. rewrite <- (Qplus_0_r size). apply Qplus_le_compat; assumption. }
  constructor; [|apply IH, Hd'].
  unfold eqb. cbn [leb].
  destruct (Qle_bool d' size) eqn:E.
  - rewrite E. apply Qle_bool_iff in Hd'. rewrite Hd'. reflexivity.
  - assert (R : Qle_bool size size = true) by apply Qle_bool_iff, Qle_refl.
    rewrite R. reflexivity.
Qed.

Lemma download_saturates_at_size_witness :
  Forall (fun v => eqb v (Fin (18 # 10)) = true)
         (Callers.values (Callers.downloadCalls (Fin (18 # 10)) (Fin 2)
                            [(16384%N, 10); (65536%N, 30)])).
Proof.
  apply (download_saturates_at_size (18 # 10) [(16384%N, 10); (65536%N, 30)] 2).
  unfold Qle. cbn. lia.
Defined.

Lemma folderCalls_S (n : nat) (clock : nat -> Z) :
  Callers.folderCalls (S n) clock =
  (Callers.folderCalls n clock ++ [Update (add (of_nat n) (of_Z 1)) (clock n)])%list.
Proof. unfold Callers.folderCalls. rewrite seq_S, map_app. reflexivity. Qed.

Lemma next_index_is_length (n : nat) : eqb (add (of_nat n) (of_Z 1)) (of_nat (S n)) = true.
Proof.
  unfold eqb, of_nat, of_Z. cbn [add leb]. apply andb_true_iff.
  split; apply Qle_bool_iff; unfold Qle, Qplus, inject_Z; cbn; lia.
Qed.

(** X4.  When the folder loop has run over a non-empty folder list, the
    value of the bar is equal to the total it was created with, in both
    versions: [completeProgress] then has no value left to add. *)
Theorem folder_loop_ends_at_total
    (task : string) (n : nat) (clock : nat -> Z) (now0 now1 : Z) :
  let bs := ProgressSimple.run
              (ProgressSimple.createProgressBar task (of_nat (S n)) now0)
              (Callers.folderCalls (S n) clock) in
  let bt := ProgressThrottled.run
              (ProgressThrottled.createProgressBar task (of_nat (S n)) now0 now1)
              (Callers.folderCalls (S n) clock) in
  eqb (ProgressSimple.value bs) (ProgressSimple.total bs) = true /\
  eqb (ProgressThrottled.value bt) (ProgressThrottled.total bt) = true.
Proof.
  cbv zeta. rewrite folderCalls_S, run_snoc_simple, run_snoc_throttled.
  cbn [ProgressSimple.step ProgressThrottled.step].
  rewrite simple_update_value, throttled_update_value.
  rewrite simple_update_total, throttled_update_total.
  destruct (simple_run_fixed (Callers.folderCalls n clock)
              (ProgressSimple.createProgressBar task (of_nat (S n)) now0)) as [-> _].
  destruct (throttled_run_fixed (Callers.folderCalls n clock)
              (ProgressThrottled.createProgressBar task (of_nat (S n)) now0 now1)) as [-> _].
  split; apply next_index_is_length.
Qed.

(** ** ETA and rate on values within the total *)

Lemma toFixed0_zero (x : Q) : (x == 0)%Q -> toFixed 0 (Fin x) = "0".
Proof.
  intro Hx. destruct x as [n d].
  assert (n = 0) by (unfold Qeq in Hx; cbn in Hx; lia). subst n.
  unfold toFixed, Qnegb, Qabs, Qle_bool, scaled, roundHalfUp, Qfloor.
  cbn -[Z.div Z.mul Z.pow].
  assert (E : (10 ^ 21 * Z.pos d <=? 0 * 1) = false) by (apply Z.leb_gt; lia).
  rewrite E.
  replace ((0 * 10 ^ 0 * 2 + 1 * Z.pos (d * 1)) / Z.pos (d * 1 * 2)) with 0; [reflexivity|].
  symmetry. apply Z.div_small. lia.
Qed.

(** X5.  When the value reported is the total itself, at least 1, and
    time has passed since creation, both versions hand the ETA "0" to
    the bar.  The clock readings are those of [Date.now()]. *)
Theorem eta_is_zero_at_total
    (bs : ProgressSimple.Bar) (bt : ProgressThrottled.Bar) (t q : Q) (now : Z)
    (Hs : ProgressSimple.total bs = Fin t)
    (Ht : ProgressThrottled.total bt = Fin t)
    (Hq : (q == t)%Q)
    (Hone : (1 <= q)%Q)
    (Hclock : 0 <= ProgressSimple.start bs /\ 0 <= ProgressThrottled.start bt /\
              now <= 8640000000000000)
    (Hnows : ProgressSimple.start bs < now)
    (Hnowt : ProgressThrottled.start bt < now) :
  ProgressSimple.eta (ProgressSimple.updateProgress bs (Fin q) now) = "0" /\
  ProgressThrottled.eta (ProgressThrottled.updateProgress bt (Fin q) now) = "0".
Proof.
  assert (Hpos : (0 < q)%Q) by (apply (Qlt_le_trans _ 1); [reflexivity | exact Hone]).
  rewrite simple_update_eta, throttled_update_eta, Hs, Ht.
  apply Z.ltb_lt in Hnows as Es. apply Z.ltb_lt in Hnowt as Et. rewrite Es, Et.
  rewrite !etaSeconds_finite by assumption.
  split; apply toFixed0_zero; unfold Qdiv; rewrite Hq; ring.
Qed.

Lemma eta_is_zero_at_total_witness :
  ProgressSimple.eta
    (ProgressSimple.updateProgress
       (ProgressSimple.createProgressBar "x" (Fin 3) 0) (Fin (6 # 2)) 700) = "0" /\
  ProgressThrottled.eta
    (ProgressThrottled.updateProgress
       (ProgressThrottled.createProgressBar "x" (Fin 3) 0 0) (Fin (6 # 2)) 700) = "0".
Proof.
  apply (eta_is_zero_at_total
           (ProgressSimple.createProgressBar "x" (Fin 3) 0)
           (ProgressThrottled.createProgressBar "x" (Fin 3) 0 0) 3 (6 # 2) 700).
  - reflexivity.
  - reflexivity.
  - reflexivity.
  - unfold Qle. cbn. lia.
  - cbn. lia.
  - reflexivity.
  - reflexivity.
Defined.

Lemma seconds_pos (since now : Z) :
  since < now -> (0 < (inject_Z now - inject_Z since) / inject_Z 1000)%Q.
Proof.
  intro H. unfold Qlt, Qdiv, Qmult, Qinv, Qminus, Qplus, Qopp, inject_Z. cbn. lia.
Qed.

Lemma eta_value_nonneg (t q secs : Q) :
  (0 < q)%Q -> (q <= t)%Q -> (0 < secs)%Q ->
  ((t - q) / (q / secs) == (t - q) * secs / q)%Q /\ (0 <= (t - q) / (q / secs))%Q.
Proof.
  intros Hq Ht Hsecs.
  assert (Hq0 : ~ (q == 0)%Q) by apply Qnot_eq_sym, Qlt_not_eq, Hq.
  assert (Hs0 : ~ (secs == 0)%Q) by apply Qnot_eq_sym, Qlt_not_eq, Hsecs.
  assert (E : ((t - q) / (q / secs) == (t - q) * secs / q)%Q) by (field; split; assumption).
  split; [exact E|]. rewrite E. unfold Qdiv.
  apply Qmult_le_0_compat; [|apply Qlt_le_weak, Qinv_lt_0_compat, Hq].
  apply Qmult_le_0_compat; [|apply Qlt_le_weak, Hsecs].
  unfold Qminus. rewrite <- Qle_minus_iff. exact Ht.
Qed.

Lemma seconds_at_most (since now bound : Z) :
  now <= since + 1000 * bound ->
  ((inject_Z now - inject_Z since) / inject_Z 1000 <= inject_Z bound)%Q.
Proof.
  intro H. unfold Qle, Qdiv, Qmult, Qinv, Qminus, Qplus, Qopp, inject_Z. cbn. lia.
Qed.

(** X6.  For a value from 1 up to the total, a total of at most [10^9],
    and a reading of the clock after creation and within [10^12] ms of
    it, the ETA both versions hand to the bar is the numeral of a whole
    number that is not negative: never a negative ETA, "Infinity", "NaN"
    or exponent notation. *)
Theorem eta_within_total_is_a_natural_number
    (bs : ProgressSimple.Bar) (bt : ProgressThrottled.Bar) (t q : Q) (start now : Z)
    (Hs : ProgressSimple.total bs = Fin t)
    (Ht : ProgressThrottled.total bt = Fin t)
    (Hss : ProgressSimple.start bs = start)
    (Hst : ProgressThrottled.start bt = start)
    (Hone : (1 <= q)%Q)
    (Hle : (q <= t)%Q)
    (Hsize : (t <= inject_Z (10 ^ 9))%Q)
    (Hclock : 0 <= start <= 8640000000000000)
    (Hnow : start < now <= start + 10 ^ 12) :
  exists n : Z,
    0 <= n /\
    ProgressSimple.eta (ProgressSimple.updateProgress bs (Fin q) now) = digits n /\
    ProgressThrottled.eta (ProgressThrottled.updateProgress bt (Fin q) now) = digits n.
Proof.
  assert (Hpos : (0 < q)%Q) by (apply (Qlt_le_trans _ 1); [reflexivity | exact Hone]).
  destruct Hnow as [Hafter Hwithin].
  rewrite simple_update_eta, throttled_update_eta, Hs, Ht, Hss, Hst.
  apply Z.ltb_lt in Hafter as E. rewrite E.
  rewrite !etaSeconds_finite by assumption.
  set (secs := ((inject_Z now - inject_Z start) / inject_Z 1000)%Q).
  pose proof (seconds_pos start now Hafter) as Hsecs. fold secs in Hsecs.
  assert (Hsecs9 : (secs <= inject_Z (10 ^ 9))%Q).
  { apply seconds_at_most. change (1000 * 10 ^ 9) with (10 ^ 12). exact Hwithin. }
  destruct (eta_value_nonneg t q secs Hpos Hle Hsecs) as [Hx Hx0].
  set (x := ((t - q) / (q / secs))%Q) in *.
  assert (Hleft : (0 <= t - q)%Q) by (unfold Qminus; rewrite <- Qle_minus_iff; exact Hle).
  assert (Hleft9 : (t - q <= inject_Z (10 ^ 9))%Q).
  { apply (Qle_trans _ t); [|exact Hsize].
    rewrite <- (Qplus_0_r t) at 2. unfold Qminus. apply Qplus_le_compat; [apply Qle_refl|].
    apply (Qopp_le_compat 0 q), Qlt_le_weak, Hpos. }
  assert (Hprod : ((t - q) * secs <= inject_Z (10 ^ 9) * inject_Z (10 ^ 9))%Q).
  { apply Qmult_le_compat_nonneg; split; try assumption. apply Qlt_le_weak, Hsecs. }
  assert (H21 : (x < inject_Z (10 ^ 21))%Q).
  { rewrite Hx. apply (Qle_lt_trans _ (inject_Z (10 ^ 9) * inject_Z (10 ^ 9))); [|reflexivity].
    apply Qle_shift_div_r; [exact Hpos|].
    apply (Qle_trans _ _ _ Hprod).
    rewrite <- (Qmult_1_r (inject_Z (10 ^ 9) * inject_Z (10 ^ 9))) at 1.
    apply Qmult_le_compat_nonneg; split; try assumption; discriminate. }
  rewrite (toFixed0_natural x Hx0 H21).
  exists (roundHalfUp x). repeat split. apply roundHalfUp_nonneg, Hx0.
Qed.

Lemma eta_within_total_is_a_natural_number_witness :
  exists n : Z,
    0 <= n /\
    ProgressSimple.eta
      (ProgressSimple.updateProgress
         (ProgressSimple.createProgressBar "x" (Fin 6) 5) (Fin 1) 2305) = digits n /\
    ProgressThrottled.eta
      (ProgressThrottled.updateProgress
         (ProgressThrottled.createProgressBar "x" (Fin 6) 5 5) (Fin 1) 2305) = digits n.
Proof.
  apply (eta_within_total_is_a_natural_number
           (ProgressSimple.createProgressBar "x" (Fin 6) 5)
           (ProgressThrottled.createProgressBar "x" (Fin 6) 5 5) 6 1 5 2305).
  - reflexivity.
  - reflexivity.
  - reflexivity.
  - reflexivity.
  - unfold Qle. cbn. lia.
  - unfold Qle. cbn. lia.
  - unfold Qle. cbn. lia.
  - lia.
  - lia.
Defined.

(** On rising input the last sample value of a throttled tracker stays
    finite, not negative and at or below the next value. *)
Lemma lastValue_below_next (q : Q) (now : Z) (cs : list call) :
  forall (b : ProgressThrottled.Bar) (low l0 : Q),
    ProgressThrottled.lastValue b = Fin l0 ->
    (0 <= l0)%Q -> (l0 <= low)%Q ->
    risingFrom low (cs ++ [Update (Fin q) now]) ->
    exists l : Q,
      ProgressThrottled.lastValue (ProgressThrottled.run b cs) = Fin l /\
      (0 <= l)%Q /\ (l <= q)%Q.
Proof.
  induction cs as [|c cs IH]; intros b low l0 Hl H0 Hlow Hr.
  - cbn in Hr. exists l0. repeat split; [exact Hl | exact H0 |].
    apply (Qle_trans _ low); tauto.
  - destruct c as [[q1| | |] now1|]; cbn [app risingFrom] in Hr; try contradiction.
    destruct Hr as [Hq1 Hr].
    cbn [ProgressThrottled.run fold_left ProgressThrottled.step].
    set (b1 := ProgressThrottled.updateProgress b (Fin q1) now1).
    assert (H1 : exists l1 : Q,
               ProgressThrottled.lastValue b1 = Fin l1 /\ (0 <= l1)%Q /\ (l1 <= q1)%Q).
    { assert (Hl0q1 : (l0 <= q1)%Q) by (apply (Qle_trans _ low); assumption).
      unfold b1. rewrite throttled_update_unfold. cbn [ProgressThrottled.lastValue].
      destruct (100 <=? now1 - ProgressThrottled.lastUpdate b).
      - exists q1. repeat split; [apply (Qle_trans _ l0); assumption | apply Qle_refl].
      - exists l0. repeat split; assumption. }
    destruct H1 as (l1 & Hl1 & H01 & Hle1).
    apply (IH b1 q1 l1 Hl1 H01 Hle1 Hr).
Qed.

(** X7.  On a throttled tracker fed finite values that never go down
    since its creation (as the callers do), up to [10^9], every rate that
    is computed is a numeral with two decimals of a number that is not
    negative: the numeral of a whole number of hundredths with the point
    before its last two digits.  The clock readings are those of
    [Date.now()]. *)
Theorem throttled_rate_not_negative_on_rising_input
    (task : string) (totalSize : num) (now0 now1 : Z)
    (cs : list call) (q : Q) (now : Z) :
  let b := ProgressThrottled.run
             (ProgressThrottled.createProgressBar task totalSize now0 now1) cs in
  risingFrom 0 (cs ++ [Update (Fin q) now]) ->
  (q <= inject_Z (10 ^ 9))%Q ->
  0 <= ProgressThrottled.lastUpdate b ->
  now <= 8640000000000000 ->
  100 <= now - ProgressThrottled.lastUpdate b ->
  exists n : Z,
    0 <= n /\
    ProgressThrottled.speed (ProgressThrottled.updateProgress b (Fin q) now) =
      withPoint 2 (digits n).
Proof.
  cbv zeta. intros Hr Hsize Hclock Hdate Hfresh.
  set (b0 := ProgressThrottled.createProgressBar task totalSize now0 now1) in *.
  destruct (lastValue_below_next q now cs b0 0 0 eq_refl (Qle_refl 0) (Qle_refl 0) Hr)
    as (l & Hl & Hl0 & Hle).
  set (b := ProgressThrottled.run b0 cs) in *.
  rewrite throttled_update_speed.
  apply Z.leb_le in Hfresh as E. rewrite E.
  unfold sampleRate. rewrite Hl, secondsBetween_Fin. cbn [sub].
  assert (Hlt : ProgressThrottled.lastUpdate b < now) by lia.
  pose proof (seconds_nonzero _ _ Hlt) as Hsec.
  pose proof (seconds_pos _ _ Hlt) as Hsecpos.
  apply Qzerob_false_iff in Hsec as Hz. unfold div. rewrite Hz.
  set (secs := ((inject_Z now - inject_Z (ProgressThrottled.lastUpdate b))
                / inject_Z 1000)%Q) in *.
  assert (Htenth : ((1 # 10) <= secs)%Q).
  { unfold secs, Qle, Qdiv, Qmult, Qinv, Qminus, Qplus, Qopp, inject_Z. cbn. lia. }
  assert (Hdiff : (0 <= q - l)%Q) by (unfold Qminus; rewrite <- Qle_minus_iff; exact Hle).
  assert (Hdiff9 : (q - l <= inject_Z (10 ^ 9))%Q).
  { apply (Qle_trans _ q); [|exact Hsize].
    rewrite <- (Qplus_0_r q) at 2. unfold Qminus. apply Qplus_le_compat; [apply Qle_refl|].
    apply (Qopp_le_compat 0 l), Hl0. }
  assert (Hr0 : (0 <= (q - l) / secs)%Q).
  { unfold Qdiv. apply Qmult_le_0_compat; [exact Hdiff|].
    apply Qlt_le_weak, Qinv_lt_0_compat, Hsecpos. }
  assert (Hr21 : ((q - l) / secs < inject_Z (10 ^ 21))%Q).
  { apply (Qle_lt_trans _ (inject_Z (10 ^ 10))); [|reflexivity].
    apply Qle_shift_div_r; [exact Hsecpos|].
    apply (Qle_trans _ _ _ Hdiff9).
    apply (Qle_trans _ (inject_Z (10 ^ 10) * (1 # 10))); [discriminate|].
    apply Qmult_le_compat_nonneg; split; try assumption; discriminate. }
  destruct (toFixed2_natural _ Hr0 Hr21) as [Etext Hn].
  rewrite Etext. eexists. split; [exact Hn | reflexivity].
Qed.

Lemma throttled_rate_not_negative_on_rising_input_witness :
  let cs := [Update (Fin 10) 100; Update (Fin 10) 150] in
  let b := ProgressThrottled.run
             (ProgressThrottled.createProgressBar "x" (Fin 100) 0 0) cs in
  exists n : Z,
    0 <= n /\
    ProgressThrottled.speed (ProgressThrottled.updateProgress b (Fin 17) 2340) =
      withPoint 2 (digits n).
Proof.
  apply (throttled_rate_not_negative_on_rising_input "x" (Fin 100) 0 0
           [Update (Fin 10) 100; Update (Fin 10) 150] 17 2340).
  - cbn. repeat split; unfold Qle; cbn; lia.
  - unfold Qle. cbn. lia.
  - cbn. lia.
  - lia.
  - cbn. lia.
Defined.

(** * The logger *)

Lemma serveAll_initialised (l : Logger.Logger) (rs : list Logger.request) :
  Logger.serveAll (Some l) rs = (repeat l (List.length rs), Some l).
Proof.
  induction rs as [|r rs IH]; [reflexivity|].
  cbn [Logger.serveAll List.length repeat].
  assert (E : Logger.serve (Some l) r = (l, Some l)) by (destruct r; reflexivity).
  rewrite E, IH. reflexivity.
Qed.

(** X8.  The logger is created once: whatever calls of [initLogger] and
    [getLogger] follow the first one, with whatever environment and
    clock, each of them returns the logger the first call configured,
    and that logger stays the stored one. *)
Theorem logger_created_once
    (production : bool) (iso : string) (r : Logger.request) (rs : list Logger.request)
    (Hr : r = Logger.Init production iso \/ r = Logger.Get production iso) :
  Logger.serveAll None (r :: rs) =
  (repeat (Logger.createLogger production iso) (S (List.length rs)),
   Some (Logger.createLogger production iso)).
Proof.
  cbn [Logger.serveAll].
  assert (E : Logger.serve None r =
              (Logger.createLogger production iso, Some (Logger.createLogger production iso)))
    by (destruct Hr; subst r; reflexivity).
  rewrite E, serveAll_initialised. reflexivity.
Qed.

Lemma logger_created_once_witness :
  Logger.serveAll None
    [Logger.Get false "2024-01-02T03:04:05.678Z";
     Logger.Init true "2025-06-07T08:09:10.111Z";
     Logger.Get true "2025-06-07T08:09:11.222Z"] =
  (repeat (Logger.createLogger false "2024-01-02T03:04:05.678Z") 3,
   Some (Logger.createLogger false "2024-01-02T03:04:05.678Z")).
Proof.
  apply (logger_created_once false "2024-01-02T03:04:05.678Z"
           (Logger.Get false "2024-01-02T03:04:05.678Z")
           [Logger.Init true "2025-06-07T08:09:10.111Z";
            Logger.Get true "2025-06-07T08:09:11.222Z"]).
  right. reflexivity.
Defined.

Example logger_file_names :
  Logger.createLogger false "2024-01-02T03:04:05.678Z" =
  Logger.mkLogger "info" "lunrlust-2024-01-02T03-04-05-678Z.log"
                  "lunrlust-error-2024-01-02T03-04-05-678Z.log" (Some "warn").
Proof. reflexivity. Qed.

Lemma without_append (c : ascii) (s1 s2 : string) :
  without c s1 -> without c s2 -> without c (s1 ++ s2).
Proof.
  induction s1 as [|a s1 IH]; cbn; [tauto|].
  intros [Ha H1] H2. split; [exact Ha | apply IH; assumption].
Qed.

Lemma dashed_without (iso : string) : without ":" (Logger.dashed iso) /\ without "." (Logger.dashed iso).
Proof.
  induction iso as [|c rest [IH1 IH2]]; [split; exact I|].
  cbn [Logger.dashed without].
  destruct (Ascii.eqb c ":") eqn:E1; cbn [orb].
  - repeat split; try assumption; discriminate.
  - destruct (Ascii.eqb c ".") eqn:E2.
    + repeat split; try assumption; discriminate.
    + apply Ascii.eqb_neq in E1, E2. repeat split; assumption.
Qed.

(** X9.  Whatever string the clock gives, the two file names of the
    logger contain no colon, and the time stamp put into them contains
    no colon and no dot. *)
Theorem log_file_names_without_colon (production : bool) (iso : string) :
  without ":" (Logger.logFile (Logger.createLogger production iso)) /\
  without ":" (Logger.errorFile (Logger.createLogger production iso)) /\
  without ":" (Logger.dashed iso) /\
  without "." (Logger.dashed iso).
Proof.
  destruct (dashed_without iso) as [Hc Hd].
  cbn [Logger.createLogger Logger.logFile Logger.errorFile].
  split; [|split; [|split; assumption]].
  - apply (without_append ":" "lunrlust-").
    + cbn. repeat split; discriminate.
    + apply without_append; [exact Hc | cbn; repeat split; discriminate].
  - apply (without_append ":" "lunrlust-error-").
    + cbn. repeat split; discriminate.
    + apply without_append; [exact Hc | cbn; repeat split; discriminate].
Qed.

(** * Drive setup *)

Lemma formatLoop_events (internalDisks : list DriveSetup.FsEntry)
    (formatOk : nat -> bool) (selected : list nat) :
  forall (i : nat) (e : DriveSetup.event),
    In e (DriveSetup.formatLoop internalDisks formatOk i selected) ->
    exists disk, In disk internalDisks /\ DriveSetup.letterOf e = DriveSetup.driveLetterOf disk.
Proof.
  induction selected as [|index rest IH]; intros i e He; [destruct He|].
  cbn [DriveSetup.formatLoop] in He.
  destruct (nth_error internalDisks index) as [disk|] eqn:En; [|destruct He].
  apply in_app_or in He. destruct He as [He|He]; [|apply (IH (S i) e He)].
  exists disk. split; [apply (nth_error_In _ _ En)|].
  destruct (formatOk i); cbn in He; intuition (subst; reflexivity).
Qed.

Lemma setupDrives_events (fsSize : list DriveSetup.FsEntry) (selected : list nat)
    (confirmFormat : bool) (formatOk : nat -> bool) (e : DriveSetup.event) :
  In e (DriveSetup.setupDrives fsSize selected confirmFormat formatOk) ->
  confirmFormat = true /\
  exists disk,
    In disk fsSize /\ DriveSetup.eligible disk = true /\
    DriveSetup.letterOf e = DriveSetup.driveLetterOf disk.
Proof.
  unfold DriveSetup.setupDrives. intro He.
  destruct (filter DriveSetup.eligible fsSize) as [|d ds] eqn:Ef; [destruct He|].
  destruct selected as [|s ss]; [destruct He|].
  destruct confirmFormat; [|destruct He]. cbn [negb] in He.
  split; [reflexivity|].
  destruct (formatLoop_events _ _ _ _ _ He) as (disk & Hin & Hl).
  rewrite <- Ef in Hin. apply filter_In in Hin. destruct Hin as [Hin Hel].
  exists disk. auto.
Qed.

Lemma eligible_true (disk : DriveSetup.FsEntry) :
  DriveSetup.eligible disk = true ->
  JSString.toLowerCase (DriveSetup.mount disk) <> "c:" /\
  DriveSetup.mount disk <> EmptyString /\
  DriveSetup.type disk <> "removable".
Proof.
  unfold DriveSetup.eligible.
  destruct (String.eqb_spec (JSString.toLowerCase (DriveSetup.mount disk)) "c:");
    [discriminate|].
  destruct (DriveSetup.mount disk) eqn:Em; cbn [JSString.isEmpty]; [discriminate|].
  destruct (String.eqb_spec (DriveSetup.type disk) "removable"); [discriminate|].
  intros _. repeat split; [assumption | discriminate | assumption].
Qed.

(** X10.  Whatever the user selects and however the [format] commands
    end, every drive letter [setupDrives] formats or creates folders on
    is the upper-cased first character of the mount point of a disk
    that the filter let through: its mount point is not empty, is not
    "c:" in any letter case, and its type is not "removable"; and
    nothing at all is done without the confirmation. *)
Theorem setupDrives_touches_eligible_disks_only
    (fsSize : list DriveSetup.FsEntry) (selected : list nat)
    (confirmFormat : bool) (formatOk : nat -> bool) (e : DriveSetup.event) :
  In e (DriveSetup.setupDrives fsSize selected confirmFormat formatOk) ->
  confirmFormat = true /\
  exists disk,
    In disk fsSize /\
    DriveSetup.letterOf e = JSString.toUpperCase (JSString.charAt 0 (DriveSetup.mount disk)) /\
    JSString.toLowerCase (DriveSetup.mount disk) <> "c:" /\
    DriveSetup.mount disk <> EmptyString /\
    DriveSetup.type disk <> "removable".
Proof.
  intro He. destruct (setupDrives_events _ _ _ _ _ He) as (Hc & disk & Hin & Hel & Hl).
  split; [exact Hc|]. exists disk.
  destruct (eligible_true disk Hel) as (H1 & H2 & H3). auto.
Qed.

Lemma setupDrives_touches_eligible_disks_only_witness :
  let fsSize := [DriveSetup.mkFsEntry "C:" "NTFS" (of_Z 500) (of_Z 100);
                 DriveSetup.mkFsEntry "d:" "NTFS" (of_Z 900) (of_Z 10)] in
  true = true /\
  exists disk,
    In disk fsSize /\
    DriveSetup.letterOf (DriveSetup.Formatted "D") =
      JSString.toUpperCase (JSString.charAt 0 (DriveSetup.mount disk)) /\
    JSString.toLowerCase (DriveSetup.mount disk) <> "c:" /\
    DriveSetup.mount disk <> EmptyString /\
    DriveSetup.type disk <> "removable".
Proof.
  apply (setupDrives_touches_eligible_disks_only
           [DriveSetup.mkFsEntry "C:" "NTFS" (of_Z 500) (of_Z 100);
            DriveSetup.mkFsEntry "d:" "NTFS" (of_Z 900) (of_Z 10)]
           [0%nat] true (fun _ => true) (DriveSetup.Formatted "D")).
  cbn. left. reflexivity.
Defined.

Lemma upper_C_lower_c (c : ascii) :
  JSString.upperChar c = "C"%char -> JSString.lowerChar c = "c"%char.
Proof.
  destruct c as [[] [] [] [] [] [] [] []]; vm_compute; intro H;
    first [reflexivity | discriminate H].
Qed.

(** X11.  When every mount point is a drive letter followed by a colon,
    drive C is never formatted and no folders are created on it,
    whatever the user selects. *)
Theorem setupDrives_spares_drive_C
    (fsSize : list DriveSetup.FsEntry) (selected : list nat)
    (confirmFormat : bool) (formatOk : nat -> bool)
    (Hmounts : forall disk, In disk fsSize ->
                 exists c : ascii, DriveSetup.mount disk = String c ":") :
  forall e, In e (DriveSetup.setupDrives fsSize selected confirmFormat formatOk) ->
            DriveSetup.letterOf e <> "C".
Proof.
  intros e He Hletter.
  destruct (setupDrives_events _ _ _ _ _ He) as (_ & disk & Hin & Hel & Hl).
  destruct (Hmounts disk Hin) as [c Hc].
  destruct (eligible_true disk Hel) as (Hnotc & _ & _).
  apply Hnotc. rewrite Hc. cbn [JSString.toLowerCase].
  rewrite Hl in Hletter. unfold DriveSetup.driveLetterOf in Hletter.
  rewrite Hc in Hletter. cbn in Hletter.
  injection Hletter as Hup. rewrite (upper_C_lower_c c Hup). reflexivity.
Qed.

Lemma setupDrives_spares_drive_C_witness :
  DriveSetup.letterOf (DriveSetup.FoldersCreated "D") <> "C".
Proof.
  apply (setupDrives_spares_drive_C
           [DriveSetup.mkFsEntry "C:" "NTFS" (of_Z 500) (of_Z 100);
            DriveSetup.mkFsEntry "d:" "NTFS" (of_Z 900) (of_Z 10)]
           [0%nat] true (fun _ => true)).
  - intros disk [H|[H|[]]]; subst disk; cbn; eexists; reflexivity.
  - cbn. right. left. reflexivity.
Defined.

(** The filter compares the whole mount point with "c:": a system drive
    mounted as "C:\" passes it and is formatted when selected. *)
Example mount_with_backslash_is_eligible :
  DriveSetup.setupDrives [DriveSetup.mkFsEntry "C:\" "NTFS" (of_Z 500) (of_Z 100)]
                         [0%nat] true (fun _ => true) =
  [DriveSetup.Formatted "C"; DriveSetup.FoldersCreated "C"].
Proof. reflexivity. Qed.

Lemma attempted_app (t1 t2 : list DriveSetup.event) :
  attempted (t1 ++ t2) = (attempted t1 ++ attempted t2)%list.
Proof.
  induction t1 as [|[l|l|l] t1 IH]; cbn [app attempted]; rewrite ?IH; reflexivity.
Qed.

Lemma formatLoop_attempted (internalDisks : list DriveSetup.FsEntry)
    (formatOk : nat -> bool) (selected : list nat) :
  Forall (fun index => (index < List.length internalDisks)%nat) selected ->
  forall i : nat,
    map Some (attempted (DriveSetup.formatLoop internalDisks formatOk i selected)) =
    map (fun index => option_map DriveSetup.driveLetterOf (nth_error internalDisks index))
        selected.
Proof.
  induction 1 as [|index rest Hindex Hrest IH]; intro i; [reflexivity|].
  cbn [DriveSetup.formatLoop map].
  destruct (nth_error internalDisks index) as [disk|] eqn:En.
  - rewrite attempted_app, map_app, IH. cbn [option_map].
    destruct (formatOk i); reflexivity.
  - apply nth_error_None in En. lia.
Qed.

(** X12.  Once the user has confirmed, the [format] command is run for
    every selected drive, in the order selected, whether or not the
    commands before it succeeded: the drive letters attempted are those
    of the selected entries of the filtered list. *)
Theorem setupDrives_attempts_every_selected_drive
    (fsSize : list DriveSetup.FsEntry) (first : nat) (others : list nat)
    (formatOk : nat -> bool) :
  let internalDisks := filter DriveSetup.eligible fsSize in
  Forall (fun index => (index < List.length internalDisks)%nat) (first :: others) ->
  map Some (attempted (DriveSetup.setupDrives fsSize (first :: others) true formatOk)) =
  map (fun index => option_map DriveSetup.driveLetterOf (nth_error internalDisks index))
      (first :: others).
Proof.
  cbv zeta. intro Hvalid. unfold DriveSetup.setupDrives.
  destruct (filter DriveSetup.eligible fsSize) as [|d ds] eqn:Ef.
  - inversion Hvalid as [|? ? Hfirst _]. cbn in Hfirst. lia.
  - cbn [negb]. apply formatLoop_attempted, Hvalid.
Qed.

Lemma setupDrives_attempts_every_selected_drive_witness :
  let fsSize := [DriveSetup.mkFsEntry "C:" "NTFS" (of_Z 500) (of_Z 100);
                 DriveSetup.mkFsEntry "d:" "NTFS" (of_Z 900) (of_Z 10);
                 DriveSetup.mkFsEntry "E:" "NTFS" (of_Z 900) (of_Z 10)] in
  map Some (attempted (DriveSetup.setupDrives fsSize [1%nat; 0%nat] true (fun _ => false))) =
  map (fun index => option_map DriveSetup.driveLetterOf
                      (nth_error (filter DriveSetup.eligible fsSize) index))
      [1%nat; 0%nat].
Proof.
  apply (setupDrives_attempts_every_selected_drive
           [DriveSetup.mkFsEntry "C:" "NTFS" (of_Z 500) (of_Z 100);
            DriveSetup.mkFsEntry "d:" "NTFS" (of_Z 900) (of_Z 10);
            DriveSetup.mkFsEntry "E:" "NTFS" (of_Z 900) (of_Z 10)]
           1%nat [0%nat] (fun _ => false)).
  cbn. repeat constructor.
Defined.

Lemma formatLoop_paired (internalDisks : list DriveSetup.FsEntry)
    (formatOk : nat -> bool) (selected : list nat) :
  forall i : nat, paired (DriveSetup.formatLoop internalDisks formatOk i selected).
Proof.
  induction selected as [|index rest IH]; intro i; [exact I|].
  cbn [DriveSetup.formatLoop].
  destruct (nth_error internalDisks index) as [disk|]; [|exact I].
  destruct (formatOk i); cbn [app paired]; [split; [reflexivity|]|]; apply IH.
Qed.

Lemma paired_folders_bounded (n : nat) :
  forall trace : list DriveSetup.event,
    (List.length trace <= n)%nat -> paired trace ->
    forall before l after,
      trace = (before ++ DriveSetup.FoldersCreated l :: after)%list ->
      exists before', before = (before' ++ [DriveSetup.Formatted l])%list.
Proof.
  induction n as [|n IH]; intros trace Hlen Hp before l after E.
  - destruct trace; [destruct before; discriminate E | cbn in Hlen; lia].
  - destruct trace as [|[a|a|a] rest]; cbn [paired] in Hp; try contradiction.
    + destruct before; discriminate E.
    + destruct rest as [|[a'|a'|a'] rest']; try contradiction.
      destruct Hp as [<- Hp].
      destruct before as [|x [|y before2]]; cbn [app] in E.
      * discriminate E.
      * injection E as Hx Hl _. subst x l. exists []. reflexivity.
      * injection E as <- <- Erest.
        destruct (IH rest' ltac:(cbn in Hlen; lia) Hp before2 l after Erest) as [b' ->].
        exists (DriveSetup.Formatted a :: DriveSetup.FoldersCreated a :: b'). reflexivity.
    + destruct before as [|x before2]; cbn [app] in E; [discriminate E|].
      injection E as <- Erest.
      destruct (IH rest ltac:(cbn in Hlen; lia) Hp before2 l after Erest) as [b' ->].
      exists (DriveSetup.FormatFailed a :: b'). reflexivity.
Qed.

(** X13.  [createFolderStructure] is called for a drive only right after
    the [format] command of that drive has succeeded, and after every
    such success: what [setupDrives] does is a sequence of successful
    formats, each directly followed by the folder creation on the same
    drive, and of failed formats; so wherever a folder creation occurs,
    what comes directly before it is the successful format of the same
    drive letter. *)
Theorem setupDrives_creates_folders_after_format_only
    (fsSize : list DriveSetup.FsEntry) (selected : list nat)
    (confirmFormat : bool) (formatOk : nat -> bool) :
  paired (DriveSetup.setupDrives fsSize selected confirmFormat formatOk) /\
  forall before l after,
    DriveSetup.setupDrives fsSize selected confirmFormat formatOk =
      (before ++ DriveSetup.FoldersCreated l :: after)%list ->
    exists before', before = (before' ++ [DriveSetup.Formatted l])%list.
Proof.
  assert (Hp : paired (DriveSetup.setupDrives fsSize selected confirmFormat formatOk)).
  { unfold DriveSetup.setupDrives.
    destruct (filter DriveSetup.eligible fsSize) as [|d ds]; [exact I|].
    destruct selected as [|s ss]; [exact I|].
    destruct confirmFormat; [|exact I]. cbn [negb]. apply formatLoop_paired. }
  split; [exact Hp|].
  intros before l after E.
  apply (paired_folders_bounded _ _ (Nat.le_refl _) Hp before l after E).
Qed.

Lemma setupDrives_creates_folders_after_format_only_witness :
  exists before',
    [DriveSetup.FormatFailed "D"; DriveSetup.Formatted "E"] =
    (before' ++ [DriveSetup.Formatted "E"])%list.
Proof.
  apply (proj2 (setupDrives_creates_folders_after_format_only
                  [DriveSetup.mkFsEntry "d:" "NTFS" (of_Z 900) (of_Z 10);
                   DriveSetup.mkFsEntry "E:" "NTFS" (of_Z 900) (of_Z 10)]
                  [0%nat; 1%nat] true (fun i => Nat.eqb i 1))
               [DriveSetup.FormatFailed "D"; DriveSetup.Formatted "E"] "E" []).
  reflexivity.
Defined.

(** * Folder descriptions *)

Lemma split_without (sep : ascii) (p : string) :
  without sep p -> JSString.split sep p = [p].
Proof.
  induction p as [|a p IH]; [reflexivity|].
  cbn [without JSString.split]. intros [Ha Hp].
  apply Ascii.eqb_neq in Ha. rewrite Ha, (IH Hp). reflexivity.
Qed.

Lemma split_append (sep : ascii) (p rest : string) :
  without sep p ->
  JSString.split sep (p ++ String sep rest) = p :: JSString.split sep rest.
Proof.
  induction p as [|a p IH].
  - intros _. cbn [append JSString.split]. rewrite Ascii.eqb_refl. reflexivity.
  - cbn [without append JSString.split]. intros [Ha Hp].
    apply Ascii.eqb_neq in Ha. rewrite Ha, (IH Hp). reflexivity.
Qed.

Lemma split_join (sep : ascii) (parts : list string) :
  parts <> [] -> Forall (without sep) parts ->
  JSString.split sep (JSString.join sep parts) = parts.
Proof.
  induction parts as [|p rest IH]; [congruence|].
  intros _ Hall. inversion Hall as [|? ? Hp Hrest]; subst.
  destruct rest as [|p' rest'].
  - cbn [JSString.join]. apply split_without, Hp.
  - change (JSString.join sep (p :: p' :: rest'))
      with (p ++ String sep (JSString.join sep (p' :: rest'))).
    rewrite (split_append sep p _ Hp), IH; [reflexivity | discriminate | exact Hrest].
Qed.

(** X14.  Splitting undoes joining, so the description of a path joined
    from parts that do not contain the separator is decided by those
    parts alone, after the empty ones and the ones ending in a colon are
    dropped. *)
Theorem getFolderDescription_of_joined_parts (sep : ascii) (parts : list string) :
  parts <> [] -> Forall (without sep) parts ->
  JSString.split sep (JSString.join sep parts) = parts /\
  DriveSetup.getFolderDescription sep (JSString.join sep parts) =
  DriveSetup.describe (filter DriveSetup.keep parts).
Proof.
  intros Hne Hall. unfold DriveSetup.getFolderDescription.
  rewrite (split_join sep parts Hne Hall). split; reflexivity.
Qed.

Lemma getFolderDescription_of_joined_parts_witness :
  JSString.split "\" (JSString.join "\" ["D:"; "Apps"; ""; "Games"; "Steam"; "Files"]) =
    ["D:"; "Apps"; ""; "Games"; "Steam"; "Files"] /\
  DriveSetup.getFolderDescription "\"
    (JSString.join "\" ["D:"; "Apps"; ""; "Games"; "Steam"; "Files"]) =
  DriveSetup.describe (filter DriveSetup.keep ["D:"; "Apps"; ""; "Games"; "Steam"; "Files"]).
Proof.
  apply (getFolderDescription_of_joined_parts "\"
           ["D:"; "Apps"; ""; "Games"; "Steam"; "Files"]).
  - discriminate.
  - repeat constructor; discriminate.
Defined.

Lemma length_with_colon (drive : string) :
  String.length (drive ++ ":") = S (String.length drive).
Proof. induction drive as [|a d IH]; cbn; [reflexivity | rewrite IH; reflexivity]. Qed.

Lemma last_of_with_colon (drive : string) :
  substring (String.length drive) 1 (drive ++ ":") = ":".
Proof. induction drive as [|a d IH]; [reflexivity | exact IH]. Qed.

Lemma keep_drive (drive : string) : DriveSetup.keep (drive ++ ":") = false.
Proof.
  unfold DriveSetup.keep, JSString.endsWith.
  rewrite length_with_colon. cbn [String.length Nat.leb].
  replace (S (String.length drive) - 1)%nat with (String.length drive) by lia.
  rewrite last_of_with_colon. cbn. apply andb_false_r.
Qed.

(** X15.  The description of a folder does not depend on the drive it is
    on: a leading drive part, whatever comes before its colon, is
    dropped before the path is looked at. *)
Theorem getFolderDescription_ignores_the_drive (sep : ascii) (drive rest : string) :
  sep <> ":"%char -> without sep drive ->
  DriveSetup.getFolderDescription sep (drive ++ ":" ++ String sep rest) =
  DriveSetup.getFolderDescription sep rest.
Proof.
  intros Hsep Hdrive. unfold DriveSetup.getFolderDescription.
  assert (Hpart : without sep (drive ++ ":")).
  { apply without_append; [exact Hdrive|]. cbn. split; [congruence | exact I]. }
  replace (drive ++ ":" ++ String sep rest) with ((drive ++ ":") ++ String sep rest).
  - rewrite (split_append sep _ rest Hpart). cbn [filter].
    rewrite keep_drive. reflexivity.
  - clear. induction drive as [|a d IH]; cbn; [reflexivity | rewrite IH; reflexivity].
Qed.

Lemma getFolderDescription_ignores_the_drive_witness :
  DriveSetup.getFolderDescription "\" ("D" ++ ":" ++ String "\" "Share\Media\Audio\Music") =
  DriveSetup.getFolderDescription "\" "Share\Media\Audio\Music".
Proof.
  apply (getFolderDescription_ignores_the_drive "\" "D" "Share\Media\Audio\Music").
  - discriminate.
  - cbn. split; [discriminate | exact I].
Defined.

Example folder_descriptions :
  DriveSetup.getFolderDescription "\" "D:\Apps\Games\Steam\Files" =
    "This folder is for storing Steam files and related content." /\
  DriveSetup.getFolderDescription "\" "D:\Apps\Games" =
    "This folder is for storing game files and related content." /\
  DriveSetup.getFolderDescription "\" "E:\Share\Media\Images\Photos\Family" =
    "This folder contains images, photos, and visual content." /\
  DriveSetup.getFolderDescription "\" "E:\Music" =
    "This folder is part of the LunrLust organized folder structure.".
Proof. repeat split. Qed.

(** * The system check *)

Ltac issue_cases si :=
  unfold SystemCheck.collectIssues;
  destruct (String.eqb (SystemCheck.platform (SystemCheck.os si)) "win32");
  destruct (JSString.startsWith (SystemCheck.release (SystemCheck.os si)) "10.");
  destruct (JSString.startsWith (SystemCheck.release (SystemCheck.os si)) "11.");
  destruct (ltb (SystemCheck.cores (SystemCheck.cpu si)) (of_Z 4));
  destruct (ltb (SystemCheck.ramGB (SystemCheck.mem si)) (of_Z 8));
  (destruct (find (fun disk => JSString.includes (SystemCheck.device disk) "C:")
                  (SystemCheck.disks si)) as [systemDrive|];
   [destruct (ltb (SystemCheck.freeSpace systemDrive) (of_Z (50 * 1024 * 1024 * 1024)))|]);
  (destruct (SystemCheck.controllers si) as [|mainGPU others];
   [|destruct (SystemCheck.isIntegrated mainGPU);
     destruct (ltb (SystemCheck.vram mainGPU) (of_Z 2048))]);
  cbn [negb andb orb app List.length Nat.eqb In];
  unfold SystemCheck.notWindows, SystemCheck.oldWindows, SystemCheck.fewCores,
    SystemCheck.littleRam, SystemCheck.littleDisk, SystemCheck.integratedGpu,
    SystemCheck.littleVram, SystemCheck.noGpu.

(** X16.  The check succeeds exactly when none of its tests fires: the
    platform is win32 with a release starting with "10." or "11.", the
    CPU does not have fewer than 4 cores, the rounded RAM is not below
    8 GB, the first disk whose device contains "C:", if there is one,
    is not below the 50 GB mark, and there is a first graphics
    controller that is neither an Intel one without "arc" in its model
    nor below 2048 MB of VRAM. *)
Theorem system_check_succeeds_iff (display : bool) (si : SystemCheck.SystemInfo) :
  SystemCheck.success (SystemCheck.checkSystemRequirements display (inl si)) = true <->
  (String.eqb (SystemCheck.platform (SystemCheck.os si)) "win32" = true /\
   (JSString.startsWith (SystemCheck.release (SystemCheck.os si)) "10."
    || JSString.startsWith (SystemCheck.release (SystemCheck.os si)) "11.") = true /\
   ltb (SystemCheck.cores (SystemCheck.cpu si)) (of_Z 4) = false /\
   ltb (SystemCheck.ramGB (SystemCheck.mem si)) (of_Z 8) = false /\
   match find (fun disk => JSString.includes (SystemCheck.device disk) "C:")
              (SystemCheck.disks si) with
   | Some systemDrive =>
       ltb (SystemCheck.freeSpace systemDrive) (of_Z (50 * 1024 * 1024 * 1024)) = false
   | None => True
   end /\
   match SystemCheck.controllers si with
   | mainGPU :: _ =>
       SystemCheck.isIntegrated mainGPU = false /\
       ltb (SystemCheck.vram mainGPU) (of_Z 2048) = false
   | [] => False
   end).
Proof.
  cbn [SystemCheck.checkSystemRequirements SystemCheck.success].
  issue_cases si; split; intro H; try discriminate H;
    try (repeat split; reflexivity); try (exfalso; intuition discriminate).
Qed.

Lemma system_check_succeeds_iff_witness :
  SystemCheck.success
    (SystemCheck.checkSystemRequirements false
       (inl (SystemCheck.mkSystemInfo
               (SystemCheck.mkCpu (of_Z 8)) (SystemCheck.mkMem (of_Z 17179869184))
               (SystemCheck.mkOsInfo "win32" "11.0.22631")
               [SystemCheck.mkController "Intel" "Arc A770" (of_Z 16384)]
               [SystemCheck.mkDisk "C:" (of_Z 1000000000000) (of_Z 40)]))) = true.
Proof.
  apply (proj2 (system_check_succeeds_iff false
                  (SystemCheck.mkSystemInfo
                     (SystemCheck.mkCpu (of_Z 8)) (SystemCheck.mkMem (of_Z 17179869184))
                     (SystemCheck.mkOsInfo "win32" "11.0.22631")
                     [SystemCheck.mkController "Intel" "Arc A770" (of_Z 16384)]
                     [SystemCheck.mkDisk "C:" (of_Z 1000000000000) (of_Z 40)]))).
  vm_compute. repeat split.
Defined.

Lemma issue_littleRam (si : SystemCheck.SystemInfo) :
  In SystemCheck.littleRam (SystemCheck.collectIssues si) <->
  ltb (SystemCheck.ramGB (SystemCheck.mem si)) (of_Z 8) = true.
Proof.
  issue_cases si; split; intro H; try reflexivity; try discriminate H;
    try (exfalso; intuition discriminate); intuition auto.
Qed.

Lemma issue_littleDisk (si : SystemCheck.SystemInfo) (systemDrive : SystemCheck.Disk) :
  find (fun disk => JSString.includes (SystemCheck.device disk) "C:")
       (SystemCheck.disks si) = Some systemDrive ->
  (In SystemCheck.littleDisk (SystemCheck.collectIssues si) <->
   ltb (SystemCheck.freeSpace systemDrive) (of_Z (50 * 1024 * 1024 * 1024)) = true).
Proof.
  intro Hfind. unfold SystemCheck.collectIssues. rewrite Hfind.
  destruct (String.eqb (SystemCheck.platform (SystemCheck.os si)) "win32");
  destruct (JSString.startsWith (SystemCheck.release (SystemCheck.os si)) "10.");
  destruct (JSString.startsWith (SystemCheck.release (SystemCheck.os si)) "11.");
  destruct (ltb (SystemCheck.cores (SystemCheck.cpu si)) (of_Z 4));
  destruct (ltb (SystemCheck.ramGB (SystemCheck.mem si)) (of_Z 8));
  destruct (ltb (SystemCheck.freeSpace systemDrive) (of_Z (50 * 1024 * 1024 * 1024)));
  (destruct (SystemCheck.controllers si) as [|mainGPU others];
   [|destruct (SystemCheck.isIntegrated mainGPU);
     destruct (ltb (SystemCheck.vram mainGPU) (of_Z 2048))]);
  cbn [negb andb orb app In];
  unfold SystemCheck.notWindows, SystemCheck.oldWindows, SystemCheck.fewCores,
    SystemCheck.littleRam, SystemCheck.littleDisk, SystemCheck.integratedGpu,
    SystemCheck.littleVram, SystemCheck.noGpu;
  split; intro H; try reflexivity; try discriminate H;
    try (exfalso; intuition discriminate); intuition auto.
Qed.

Lemma ramGB_below_8 (m : Q) :
  ltb (SystemCheck.ramGB (SystemCheck.mkMem (Fin m))) (of_Z 8) = true <->
  (m < inject_Z 8053063680)%Q.
Proof.
  unfold SystemCheck.ramGB, SystemCheck.memTotal, JSMath.round, of_Z.
  cbn [div Qzerob Qnum inject_Z Z.eqb]. cbn [ltb].
  set (y := (m / inject_Z 1024 / inject_Z 1024 / inject_Z 1024 + (1 # 2))%Q).
  assert (Hy : (y < inject_Z 8 <-> m < inject_Z 8053063680)%Q).
  { unfold y. split; intro H.
    - apply (Qmult_lt_r _ _ (1 / inject_Z 1073741824)); [reflexivity|].
      apply (Qplus_lt_l _ _ (1 # 2)).
      eapply Qle_lt_trans; [|eapply Qlt_le_trans; [exact H|]].
      + apply Qle_lteq. right. field.
      + discriminate.
    - apply (Qmult_lt_r _ _ (1 / inject_Z 1073741824)) in H; [|reflexivity].
      apply (Qplus_lt_l _ _ (1 # 2)) in H.
      eapply Qle_lt_trans; [|eapply Qlt_le_trans; [exact H|]].
      + apply Qle_lteq. right. field.
      + discriminate. }
  rewrite <- Hy. unfold Qltb. rewrite negb_true_iff.
  split; intro H.
  - apply (Qlt_le_trans _ (inject_Z (Qfloor y + 1))); [apply Qlt_floor|].
    rewrite <- Zle_Qle.
    assert (Hn : ~ (inject_Z 8 <= inject_Z (Qfloor y))%Q).
    { intro L. apply Qle_bool_iff in L. congruence. }
    rewrite <- Zle_Qle in Hn. lia.
  - destruct (Qle_bool (inject_Z 8) (inject_Z (Qfloor y))) eqn:E; [|reflexivity].
    apply Qle_bool_iff in E. exfalso.
    apply (Qlt_irrefl (inject_Z 8)). eapply Qle_lt_trans; [exact E|].
    eapply Qle_lt_trans; [apply Qfloor_le | exact H].
Qed.

(** X17.  Because the RAM is rounded to whole gigabytes before it is
    compared with 8, the RAM issue is reported exactly when the memory is
    below 7.5 GiB (8053063680 bytes): a machine with 7.5 GiB passes. *)
Theorem ram_issue_below_7_5_GiB
    (display : bool) (si : SystemCheck.SystemInfo) (m : Q)
    (Hm : SystemCheck.memTotal (SystemCheck.mem si) = Fin m) :
  In SystemCheck.littleRam
     (SystemCheck.issues (SystemCheck.checkSystemRequirements display (inl si))) <->
  (m < inject_Z 8053063680)%Q.
Proof.
  cbn [SystemCheck.checkSystemRequirements SystemCheck.issues].
  rewrite issue_littleRam, <- ramGB_below_8.
  destruct (SystemCheck.mem si) as [total]. cbn in Hm. subst total. reflexivity.
Qed.

Lemma ram_issue_below_7_5_GiB_witness :
  In SystemCheck.littleRam
     (SystemCheck.issues
        (SystemCheck.checkSystemRequirements false
           (inl (SystemCheck.mkSystemInfo
                   (SystemCheck.mkCpu (of_Z 8)) (SystemCheck.mkMem (Fin (inject_Z 8053063679)))
                   (SystemCheck.mkOsInfo "win32" "10.0.19045")
                   [SystemCheck.mkController "NVIDIA" "RTX 3060" (of_Z 12288)] [])))) <->
  (inject_Z 8053063679 < inject_Z 8053063680)%Q.
Proof.
  apply (ram_issue_below_7_5_GiB false
           (SystemCheck.mkSystemInfo
              (SystemCheck.mkCpu (of_Z 8)) (SystemCheck.mkMem (Fin (inject_Z 8053063679)))
              (SystemCheck.mkOsInfo "win32" "10.0.19045")
              [SystemCheck.mkController "NVIDIA" "RTX 3060" (of_Z 12288)] [])
           (inject_Z 8053063679)).
  reflexivity.
Defined.

Example ram_rounding :
  let check total :=
    SystemCheck.issues
      (SystemCheck.checkSystemRequirements false
         (inl (SystemCheck.mkSystemInfo
                 (SystemCheck.mkCpu (of_Z 8)) (SystemCheck.mkMem (of_Z total))
                 (SystemCheck.mkOsInfo "win32" "10.0.19045")
                 [SystemCheck.mkController "NVIDIA" "RTX 3060" (of_Z 12288)] []))) in
  check 8053063680 = [] /\ check 8053063679 = [SystemCheck.littleRam].
Proof. vm_compute. split; reflexivity. Qed.

Lemma freeSpace_below_mark (s p : Q) :
  ltb (SystemCheck.freeSpace (SystemCheck.mkDisk "C:" (Fin s) (Fin p)))
      (of_Z (50 * 1024 * 1024 * 1024)) = true <->
  (s * (100 - p) / 100 < inject_Z 53687091200)%Q.
Proof.
  unfold SystemCheck.freeSpace, SystemCheck.diskSize, SystemCheck.percentageFree, of_Z.
  cbn [div Qzerob Qnum inject_Z Z.eqb JSMath.mul sub]. cbn [ltb].
  unfold Qltb. rewrite negb_true_iff.
  change (inject_Z (50 * 1024 * 1024 * 1024)) with (inject_Z 53687091200).
  assert (E : (s - s * (p / inject_Z 100) == s * (100 - p) / 100)%Q) by field.
  rewrite <- E.
  split; intro H.
  - apply Qnot_le_lt. intro L. apply Qle_bool_iff in L. congruence.
  - destruct (Qle_bool (inject_Z 53687091200) (s - s * (p / inject_Z 100))) eqn:B;
      [|reflexivity].
    apply Qle_bool_iff in B. exfalso. apply (Qlt_irrefl (inject_Z 53687091200)).
    eapply Qle_lt_trans; eassumption.
Qed.

(** X18.  The quantity compared with 50 GB is
    [size - size * (percentageFree / 100)]: a system drive reported as
    entirely free (100) gets the disk issue whatever its finite size,
    and one reported as entirely full (0) gets it exactly when its size
    is below 53687091200 bytes. *)
Theorem disk_issue_on_free_and_full_drive
    (display : bool) (si : SystemCheck.SystemInfo) (systemDrive : SystemCheck.Disk) (s : Q)
    (Hfind : find (fun disk => JSString.includes (SystemCheck.device disk) "C:")
                  (SystemCheck.disks si) = Some systemDrive)
    (Hs : SystemCheck.diskSize systemDrive = Fin s) :
  (SystemCheck.percentageFree systemDrive = of_Z 100 ->
   In SystemCheck.littleDisk
      (SystemCheck.issues (SystemCheck.checkSystemRequirements display (inl si)))) /\
  (SystemCheck.percentageFree systemDrive = of_Z 0 ->
   (In SystemCheck.littleDisk
       (SystemCheck.issues (SystemCheck.checkSystemRequirements display (inl si))) <->
    (s < inject_Z 53687091200)%Q)).
Proof.
  cbn [SystemCheck.checkSystemRequirements SystemCheck.issues].
  rewrite (issue_littleDisk si systemDrive Hfind).
  split; intro Hp.
  - assert (E : ltb (SystemCheck.freeSpace (SystemCheck.mkDisk "C:" (Fin s) (Fin (inject_Z 100))))
                    (of_Z (50 * 1024 * 1024 * 1024)) = true).
    { apply freeSpace_below_mark.
      setoid_replace (s * (100 - inject_Z 100) / 100)%Q with 0%Q; [reflexivity|].
      unfold Qdiv. setoid_replace (100 - inject_Z 100)%Q with 0%Q by reflexivity. ring. }
    unfold SystemCheck.freeSpace in *. rewrite Hs, Hp. exact E.
  - assert (E : ltb (SystemCheck.freeSpace (SystemCheck.mkDisk "C:" (Fin s) (Fin (inject_Z 0))))
                    (of_Z (50 * 1024 * 1024 * 1024)) = true <->
                (s < inject_Z 53687091200)%Q).
    { rewrite freeSpace_below_mark.
      setoid_replace (s * (100 - inject_Z 0) / 100)%Q with s; [reflexivity|].
      change (inject_Z 0) with 0%Q. field. }
    unfold SystemCheck.freeSpace in *. rewrite Hs, Hp. exact E.
Qed.

Lemma disk_issue_on_free_and_full_drive_witness :
  In SystemCheck.littleDisk
     (SystemCheck.issues
        (SystemCheck.checkSystemRequirements false
           (inl (SystemCheck.mkSystemInfo
                   (SystemCheck.mkCpu (of_Z 8)) (SystemCheck.mkMem (of_Z 17179869184))
                   (SystemCheck.mkOsInfo "win32" "10.0.19045")
                   [SystemCheck.mkController "NVIDIA" "RTX 3060" (of_Z 12288)]
                   [SystemCheck.mkDisk "D:" (of_Z 1) (of_Z 1);
                    SystemCheck.mkDisk "C:" (Fin (inject_Z 1000000000000)) (of_Z 100)])))).
Proof.
  apply (proj1 (disk_issue_on_free_and_full_drive false
           (SystemCheck.mkSystemInfo
              (SystemCheck.mkCpu (of_Z 8)) (SystemCheck.mkMem (of_Z 17179869184))
              (SystemCheck.mkOsInfo "win32" "10.0.19045")
              [SystemCheck.mkController "NVIDIA" "RTX 3060" (of_Z 12288)]
              [SystemCheck.mkDisk "D:" (of_Z 1) (of_Z 1);
               SystemCheck.mkDisk "C:" (Fin (inject_Z 1000000000000)) (of_Z 100)])
           (SystemCheck.mkDisk "C:" (Fin (inject_Z 1000000000000)) (of_Z 100))
           (inject_Z 1000000000000) eq_refl eq_refl)).
  reflexivity.
Defined.

(** A system drive of 1 TB that is entirely free is reported, one that
    is entirely full is not. *)
Example disk_issue_on_a_free_drive :
  let check free :=
    SystemCheck.issues
      (SystemCheck.checkSystemRequirements false
         (inl (SystemCheck.mkSystemInfo
                 (SystemCheck.mkCpu (of_Z 8)) (SystemCheck.mkMem (of_Z 17179869184))
                 (SystemCheck.mkOsInfo "win32" "10.0.19045")
                 [SystemCheck.mkController "NVIDIA" "RTX 3060" (of_Z 12288)]
                 [SystemCheck.mkDisk "C:" (of_Z 1000000000000) (of_Z free)]))) in
  check 100 = [SystemCheck.littleDisk] /\ check 0 = [].
Proof. vm_compute. split; reflexivity. Qed.

(** * Cleanup summary *)

Lemma arrayIncludes_In (a : list string) (x : string) :
  JSString.arrayIncludes a x = true <-> In x a.
Proof.
  unfold JSString.arrayIncludes. rewrite existsb_exists. split.
  - intros (y & Hy & E). apply String.eqb_eq in E. subst y. exact Hy.
  - intro H. exists x. split; [exact H | apply String.eqb_refl].
Qed.

Lemma arrayIncludes_same (a b : list string) (x : string) :
  (In x a <-> In x b) -> JSString.arrayIncludes a x = JSString.arrayIncludes b x.
Proof.
  intro H. rewrite <- !arrayIncludes_In in H.
  destruct (JSString.arrayIncludes a x), (JSString.arrayIncludes b x);
    try reflexivity; [symmetry|]; apply H; reflexivity.
Qed.

(** X19.  The total that [calculateTotalCleaned] reports depends only on
    which of the four options temp, browser, windowsUpdate and
    recycleBin are among the selected ones: their order, repetitions
    and any other option make no difference. *)
Theorem calculateTotalCleaned_depends_on_membership
    (options options' : list string) (sizes : Optimization.Sizes)
    (Hsame : forall k, In k ["temp"; "browser"; "windowsUpdate"; "recycleBin"] ->
                       (In k options <-> In k options')) :
  Optimization.calculateTotalCleaned options sizes =
  Optimization.calculateTotalCleaned options' sizes.
Proof.
  unfold Optimization.calculateTotalCleaned.
  rewrite (arrayIncludes_same options options' "temp") by (apply Hsame; cbn; tauto).
  rewrite (arrayIncludes_same options options' "browser") by (apply Hsame; cbn; tauto).
  rewrite (arrayIncludes_same options options' "windowsUpdate") by (apply Hsame; cbn; tauto).
  rewrite (arrayIncludes_same options options' "recycleBin") by (apply Hsame; cbn; tauto).
  reflexivity.
Qed.

Lemma calculateTotalCleaned_depends_on_membership_witness :
  Optimization.calculateTotalCleaned ["browser"; "temp"; "other"; "temp"]
    (Optimization.mkSizes "4.2 GB" "1.8 GB" "3.5 GB" "2.1 GB") =
  Optimization.calculateTotalCleaned ["temp"; "browser"]
    (Optimization.mkSizes "4.2 GB" "1.8 GB" "3.5 GB" "2.1 GB").
Proof.
  apply (calculateTotalCleaned_depends_on_membership
           ["browser"; "temp"; "other"; "temp"] ["temp"; "browser"]
           (Optimization.mkSizes "4.2 GB" "1.8 GB" "3.5 GB" "2.1 GB")).
  intros k Hk. cbn in Hk. cbn.
  destruct Hk as [<-|[<-|[<-|[<-|[]]]]]; split; intro H;
    repeat (destruct H as [H|H]; try discriminate H; auto).
Defined.

(** The sizes of [cleanTemporaryFiles], all four selected, and none. *)
Example total_cleaned :
  let sizes := Optimization.mkSizes "4.2 GB" "1.8 GB" "3.5 GB" "2.1 GB" in
  Optimization.calculateTotalCleaned ["temp"; "browser"; "windowsUpdate"; "recycleBin"] sizes
    = "11.6 GB" /\
  Optimization.calculateTotalCleaned [] sizes = "0.0 GB".
Proof. vm_compute. split; reflexivity. Qed.
